(** * Plan-as-code executor of the customer service agent

  Shallow embedding of [_extract_execute_block], [execute_generated_code]
  and [customer_service_agent] from
  [agentic_ai/muti_agent_example/customer_service_agent/M5_UGL_1_R.py],
  together with the properties of the executor that the design document
  states.

  Conventions.
  - A Python [str] is a Rocq [string]; every character stands for the code
    point of the same number (0..255).
  - A Python [dict] with string keys is a [gmap string _].
  - A call that may raise returns an [outcome].
  - The caller hands the executor a database whose tables can be read; a
    plan body can close it, and it can close, truncate or replace the
    stream objects it reaches. *)

From Stdlib Require Import String Ascii List Bool Arith Lia.
From stdpp Require Import base option gmap strings list.

Local Open Scope string_scope.
Local Set Warnings "-register-all".

(** ** Python text primitives *)

Module PyStr.

(** [str.isspace] on one character: U+0009..U+000D, U+001C..U+001F,
    U+0020, U+0085 and U+00A0. *)
Definition is_space (c : ascii) : bool :=
  let n := nat_of_ascii c in
  (((9 <=? n) && (n <=? 13)) || ((28 <=? n) && (n <=? 31))
   || (n =? 32) || (n =? 133) || (n =? 160))%nat.

(** Simple lower-casing as [re.IGNORECASE] applies it to the letters that
    occur in the tag pattern: only A..Z fold onto a..z. *)
Definition lower (c : ascii) : ascii :=
  let n := nat_of_ascii c in
  if ((65 <=? n) && (n <=? 90))%nat then ascii_of_nat (n + 32) else c.

Definition ci_eqb (a b : ascii) : bool := Ascii.eqb (lower a) (lower b).

Fixpoint lstrip (s : string) : string :=
  match s with
  | EmptyString => EmptyString
  | String c s' => if is_space c then lstrip s' else s
  end.

Fixpoint rstrip (s : string) : string :=
  match s with
  | EmptyString => EmptyString
  | String c s' =>
      match rstrip s' with
      | EmptyString => if is_space c then EmptyString else String c EmptyString
      | r => String c r
      end
  end.

(** [s.strip()] *)
Definition strip (s : string) : string := rstrip (lstrip s).

(** Every character of [s] is white space (true on the empty string). *)
Fixpoint all_space (s : string) : bool :=
  match s with
  | EmptyString => true
  | String c s' => is_space c && all_space s'
  end.

(** Truth value of a string: [not text] holds exactly on [""]. *)
Definition truthy (s : string) : bool :=
  match s with EmptyString => false | String _ _ => true end.

Definition nl : string := String (ascii_of_nat 10) EmptyString.

End PyStr.

(** ** The regular expression of the extractor

  [re.search(r"<execute_python>(.*?)</execute_python>", text,
             re.DOTALL | re.IGNORECASE)] *)

Module Regex.
Import PyStr.

Definition open_tag : string := "<execute_python>".
Definition close_tag : string := "</execute_python>".

(** A literal matched at the head of [s], ignoring case; the remainder of
    [s] after the literal is returned. *)
Fixpoint match_literal (pat s : string) : option string :=
  match pat with
  | EmptyString => Some s
  | String p pat' =>
      match s with
      | EmptyString => None
      | String c s' => if ci_eqb p c then match_literal pat' s' else None
      end
  end.

(** [(.*?)] followed by the literal [stop], with [re.DOTALL]: the group
    grows one character at a time until [stop] matches. The captured
    group is returned. *)
Fixpoint lazy_until (stop s : string) : option string :=
  match match_literal stop s with
  | Some _ => Some EmptyString
  | None =>
      match s with
      | EmptyString => None
      | String c s' => option_map (String c) (lazy_until stop s')
      end
  end.

(** The whole pattern anchored at the head of [s]. *)
Definition match_here (s : string) : option string :=
  match match_literal open_tag s with
  | Some rest => lazy_until close_tag rest
  | None => None
  end.

(** [re.search]: the match at the leftmost start position; the result is
    [m.group(1)], or [None] when there is no match. *)
Fixpoint search (s : string) : option string :=
  match match_here s with
  | Some g => Some g
  | None =>
      match s with
      | EmptyString => None
      | String _ s' => search s'
      end
  end.

End Regex.


(** ** Exceptions and results of calls *)

Record PyExn := mkExn {
  exn_is_Exception : bool;   (* isinstance(e, Exception) *)
  exn_type : string;         (* the class name *)
  exn_msg : string;          (* str(e) *)
  exn_frames : string        (* the stack lines of the traceback below the
                                frame that handles the exception *)
}.

Inductive outcome (A : Type) : Type :=
| Returns (a : A)
| Raises (e : PyExn).
Arguments Returns {A} a.
Arguments Raises {A} e.

(** [traceback.format_exc()] in a handler whose own stack lines are [site]:
    the heading, the handler's frame, the frames below it, then the class
    and the message of the exception. *)
Definition format_exc (site : string) (e : PyExn) : string :=
  "Traceback (most recent call last):" ++ PyStr.nl ++ site ++ exn_frames e
  ++ exn_type e
  ++ (if PyStr.truthy (exn_msg e) then ": " ++ exn_msg e else "")
  ++ PyStr.nl.

Definition RuntimeError (msg : string) : PyExn :=
  {| exn_is_Exception := true; exn_type := "RuntimeError";
     exn_msg := msg; exn_frames := "" |}.

(** What a closed stream raises when it is read or written. *)
Definition closed_file_error : PyExn :=
  {| exn_is_Exception := true; exn_type := "ValueError";
     exn_msg := "I/O operation on closed file"; exn_frames := "" |}.

(** ** [_extract_execute_block] *)

Definition _extract_execute_block (text : string) : outcome string :=
if negb (PyStr.truthy text) then
  Raises (RuntimeError "Empty content passed to code executor.")
else
  match Regex.search text with
  | Some g => Returns (PyStr.strip g)
  | None => Returns (PyStr.strip text)
  end.

(** ** Python values, documents and the process state *)

(** Objects that the executor hands to the plan or that live in the
    interpreter: the TinyDB database, one of its tables, a callable or
    class known by its qualified name, a module, the dictionary of a
    module, and an object whose truth test ([__bool__] or [__len__])
    raises. *)
Inductive PyObj : Type :=
| ODb
| OTable (name : string)
| OCallable (qualname : string)
| OModule (name : string)
| ONamespace (module : string)
| OFaulty (e : PyExn).

(** Values a plan can bind to a name. A float is the dyadic number
    [m * 2^e]. *)
Inductive PyVal : Type :=
| VNone
| VBool (b : bool)
| VInt (z : Z)
| VFloat (m e : Z)
| VStr (s : string)
| VList (l : list PyVal)
| VDict (d : list (string * PyVal))
| VObj (o : PyObj).

(** A TinyDB document: the fields in insertion order. *)
Definition Doc : Type := list (string * PyVal).

(** A text stream object: what it holds and whether it was closed. *)
Record Stream := mkStream {
  s_text : string;
  s_closed : bool
}.

Definition new_stream : Stream := {| s_text := ""; s_closed := false |}.

(** The part of the process that the executor reads or writes: the tables
    of the database by name, the object bound to [sys.stdout], and every
    stream object. The caller hands over a database whose tables can be
    read; a plan can end that (see [Frame]). *)
Record World := mkWorld {
  tables : gmap string (list Doc);
  sys_stdout : nat;
  streams : gmap nat Stream
}.

(** The documents of a table. *)
Definition table_all (w : World) (t : string) : list Doc :=
  default [] (tables w !! t).

Definition stream_of (w : World) (h : nat) : Stream :=
  default new_stream (streams w !! h).

Definition set_tables (w : World) (ts : gmap string (list Doc)) : World :=
  {| tables := ts; sys_stdout := sys_stdout w; streams := streams w |}.

Definition set_stdout (w : World) (h : nat) : World :=
  {| tables := tables w; sys_stdout := h; streams := streams w |}.

Definition set_streams (w : World) (ss : gmap nat Stream) : World :=
  {| tables := tables w; sys_stdout := sys_stdout w; streams := ss |}.

(** The effect of a successful [sys.stdout.write(s)]. *)
Definition write_stdout (w : World) (s : string) : World :=
  let h := sys_stdout w in
  set_streams w
    (<[h := {| s_text := s_text (stream_of w h) ++ s;
               s_closed := s_closed (stream_of w h) |}]> (streams w)).

(** [io.StringIO()]: a stream object distinct from every existing one and
    from the one bound to [sys.stdout], open and holding no text. *)
Definition new_StringIO (w : World) : nat * World :=
  let h := fresh ({[sys_stdout w]} ∪ dom (streams w) : gset nat) in
  (h, set_streams w (<[h := new_stream]> (streams w))).

(** [buf.getvalue()] *)
Definition getvalue (w : World) (h : nat) : outcome string :=
  if s_closed (stream_of w h) then Raises closed_file_error
  else Returns (s_text (stream_of w h)).

(** Whether the tables can be read: [None], or the exception that every
    access to the storage raises. *)
Definition Storage : Type := option PyExn.

(** [tbl.all()] *)
Definition read_table (st : Storage) (w : World) (t : string)
    : outcome (list Doc) :=
  match st with
  | Some e => Raises e
  | None => Returns (table_all w t)
  end.

Definition nonempty {A : Type} (l : list A) : bool :=
  match l with [] => false | _ => true end.

(** The truth test of a value, as [or] applies it. A TinyDB table is as
    true as it is non-empty ([Table.__len__], which reads the storage); the
    database answers with its default table. *)
Definition truthy (st : Storage) (w : World) (v : PyVal) : outcome bool :=
  match v with
  | VNone => Returns false
  | VBool b => Returns b
  | VInt z => Returns (negb (Z.eqb z 0))
  | VFloat m _ => Returns (negb (Z.eqb m 0))
  | VStr s => Returns (PyStr.truthy s)
  | VList l => Returns (nonempty l)
  | VDict d => Returns (nonempty d)
  | VObj (OTable t) =>
      match read_table st w t with
      | Returns ds => Returns (nonempty ds)
      | Raises e => Raises e
      end
  | VObj ODb =>
      match read_table st w "_default" with
      | Returns ds => Returns (nonempty ds)
      | Raises e => Raises e
      end
  | VObj (OFaulty e) => Raises e
  | VObj _ => Returns true
  end.

(** [a or b]: [a] when its truth test says true, else [b]; the exception of
    the truth test when it raises. *)
Definition py_or (st : Storage) (w : World) (a b : PyVal) : outcome PyVal :=
  match truthy st w a with
  | Raises e => Raises e
  | Returns true => Returns a
  | Returns false => Returns b
  end.

(** [a or b or c]: each of [a] and [b] is tested once, [c] is not tested. *)
Definition py_or3 (st : Storage) (w : World) (a b c : PyVal)
    : outcome PyVal :=
  match truthy st w a with
  | Raises e => Raises e
  | Returns true => Returns a
  | Returns false => py_or st w b c
  end.

(** [d.get(k)] *)
Definition dict_get (d : gmap string PyVal) (k : string) : PyVal :=
  default VNone (d !! k).

(** ** Plan bodies

    What [exec(code, globals, locals)] does is a tree of the effects the
    executor can observe; what the code computes in between is the host
    function that builds the tree. An operation that can fail hands its
    result to the rest of the code, which raises or handles it. *)
Inductive Plan : Type :=
| Done                                       (* falls off the end *)
| Raise (e : PyExn)                          (* an uncaught raise *)
| Assign (x : string) (v : PyVal) (k : Plan) (* x = v, import x, def x *)
| Lookup (x : string) (k : option PyVal -> Plan)   (* reads the name x *)
| Print (s : string) (k : bool -> Plan)
      (* sys.stdout.write(s); false when that stream is closed *)
| GetStdout (k : nat -> Plan)                (* reads sys.stdout *)
| SetStdout (h : nat) (k : Plan)             (* sys.stdout = h *)
| StreamDo (h : nat) (f : Stream -> Stream) (k : Plan)
      (* a method of the stream object h: write, seek, truncate, close *)
| StreamGet (h : nat) (k : Stream -> Plan)   (* h.getvalue(), h.closed *)
| TblAll (t : string) (k : outcome (list Doc) -> Plan)    (* tbl.all() *)
| TblWrite (t : string) (f : list Doc -> list Doc) (k : option PyExn -> Plan)
      (* insert, update, remove, truncate; the exception when it fails *)
| BreakStorage (e : PyExn) (k : Plan).
      (* db.close() and the like: every later access to a table raises e *)

(** The interpreter: its built-in name space, the behaviour of every source
    text (a text that does not parse raises [SyntaxError]), and the stack
    lines that a traceback shows for the call of [exec] in
    [execute_generated_code]. *)
Record Python := mkPython {
  builtins : gmap string PyVal;
  compile : string -> Plan;
  exec_site : string
}.

(** The name spaces and the process state during [exec], and whether the
    tables can still be read. *)
Record Frame := mkFrame {
  f_builtins : gmap string PyVal;
  f_globals : gmap string PyVal;
  f_locals : gmap string PyVal;
  f_world : World;
  f_storage : Storage
}.

Definition set_world (fr : Frame) (w : World) : Frame :=
  {| f_builtins := f_builtins fr; f_globals := f_globals fr;
     f_locals := f_locals fr; f_world := w; f_storage := f_storage fr |}.

Definition set_local (fr : Frame) (x : string) (v : PyVal) : Frame :=
  {| f_builtins := f_builtins fr; f_globals := f_globals fr;
     f_locals := <[x := v]> (f_locals fr); f_world := f_world fr;
     f_storage := f_storage fr |}.

Definition set_storage (fr : Frame) (st : Storage) : Frame :=
  {| f_builtins := f_builtins fr; f_globals := f_globals fr;
     f_locals := f_locals fr; f_world := f_world fr; f_storage := st |}.

(** Name resolution in executed code: locals, then globals, then built-ins. *)
Definition resolve (fr : Frame) (x : string) : option PyVal :=
  match f_locals fr !! x with
  | Some v => Some v
  | None =>
      match f_globals fr !! x with
      | Some v => Some v
      | None => f_builtins fr !! x
      end
  end.

Inductive Event : Type :=
| EAssign (x : string)
| ELookup (x : string)
| EPrint (s : string)          (* s was written to standard output *)
| EPrintFailed
| EGetStdout
| ESetStdout (h : nat)
| EStream (h : nat)            (* a method of the stream object h ran *)
| EStreamGet (h : nat)
| ERead (t : string)
| EWrite (t : string)          (* the table t was written *)
| EWriteFailed (t : string)
| EBreak
| ERaise (e : PyExn).

(** The state a run ends in, the exception that ended it if any, and what
    the body did, in order. *)
Record Ran := mkRan {
  ran_frame : Frame;
  ran_exn : option PyExn;
  ran_trace : list Event
}.

Definition after (ev : Event) (r : Ran) : Ran :=
  {| ran_frame := ran_frame r; ran_exn := ran_exn r;
     ran_trace := ev :: ran_trace r |}.

Fixpoint run_plan (p : Plan) (fr : Frame) : Ran :=
  match p with
  | Done => {| ran_frame := fr; ran_exn := None; ran_trace := [] |}
  | Raise e => {| ran_frame := fr; ran_exn := Some e; ran_trace := [ERaise e] |}
  | Assign x v k => after (EAssign x) (run_plan k (set_local fr x v))
  | Lookup x k => after (ELookup x) (run_plan (k (resolve fr x)) fr)
  | Print s k =>
      let w := f_world fr in
      if s_closed (stream_of w (sys_stdout w)) then
        after EPrintFailed (run_plan (k false) fr)
      else
        after (EPrint s) (run_plan (k true) (set_world fr (write_stdout w s)))
  | GetStdout k => after EGetStdout (run_plan (k (sys_stdout (f_world fr))) fr)
  | SetStdout h k =>
      after (ESetStdout h) (run_plan k (set_world fr (set_stdout (f_world fr) h)))
  | StreamDo h f k =>
      let w := f_world fr in
      after (EStream h)
        (run_plan k (set_world fr
           (set_streams w (<[h := f (stream_of w h)]> (streams w)))))
  | StreamGet h k =>
      after (EStreamGet h) (run_plan (k (stream_of (f_world fr) h)) fr)
  | TblAll t k =>
      after (ERead t) (run_plan (k (read_table (f_storage fr) (f_world fr) t)) fr)
  | TblWrite t f k =>
      let w := f_world fr in
      match f_storage fr with
      | Some e => after (EWriteFailed t) (run_plan (k (Some e)) fr)
      | None =>
          after (EWrite t)
            (run_plan (k None) (set_world fr
               (set_tables w (<[t := f (table_all w t)]> (tables w)))))
      end
  | BreakStorage e k => after EBreak (run_plan k (set_storage fr (Some e)))
  end.

(** [exec(code, globals, locals)]: a globals dictionary without
    ["__builtins__"] receives a reference to the dictionary of the built-in
    module, then the code runs in the two name spaces. [exec_frame] is the
    state the first statement of the code sees. *)
Definition exec_frame (py : Python) (globals locals : gmap string PyVal)
    (w : World) : Frame :=
  let globals' :=
    match globals !! "__builtins__" with
    | Some _ => globals
    | None => <["__builtins__" := VObj (ONamespace "builtins")]> globals
    end in
  {| f_builtins := builtins py; f_globals := globals';
     f_locals := locals; f_world := w; f_storage := None |}.

Definition py_exec (py : Python) (code : string)
    (globals locals : gmap string PyVal) (w : World) : Ran :=
  run_plan (compile py code) (exec_frame py globals locals w).

(** ** [execute_generated_code] *)

(** The dictionary the executor returns. *)
Module ExecutionResult.
Record t := mk {
  code : string;
  stdout : string;
  error : option string;
  answer : PyVal;
  transactions_tbl : list Doc;
  inventory_tbl : list Doc
}.
End ExecutionResult.

Definition SAFE_GLOBALS (user_request : option string) : gmap string PyVal :=
  {[ "Query" := VObj (OCallable "tinydb.Query");
     "get_current_balance" := VObj (OCallable "inv_utils.get_current_balance");
     "next_transaction_id" := VObj (OCallable "inv_utils.next_transaction_id");
     "user_request" :=
       VStr (match user_request with
             | Some s => if PyStr.truthy s then s else ""
             | None => ""
             end) ]}.

Definition SAFE_LOCALS (db : PyVal) (inventory_tbl transactions_tbl : string)
    : gmap string PyVal :=
  {[ "db" := db;
     "inventory_tbl" := VObj (OTable inventory_tbl);
     "transactions_tbl" := VObj (OTable transactions_tbl) ]}.

(** The statements after the [try] block, in their order: read the buffer,
    harvest the answer, read the two tables for the dictionary. The first
    of them that raises ends the call. *)
Definition assemble_result (code : string) (_stdout_buf : nat)
    (err_text : option string) (locals : gmap string PyVal)
    (inventory_tbl transactions_tbl : string) (st : Storage) (w : World)
    : outcome ExecutionResult.t :=
  match getvalue w _stdout_buf with
  | Raises e => Raises e
  | Returns out =>
      let printed := PyStr.strip out in
      match py_or3 st w (dict_get locals "answer_text")
                        (dict_get locals "answer_rows")
                        (dict_get locals "answer_json") with
      | Raises e => Raises e
      | Returns answer =>
          match read_table st w transactions_tbl with
          | Raises e => Raises e
          | Returns txn_all =>
              match read_table st w inventory_tbl with
              | Raises e => Raises e
              | Returns inv_all =>
                  Returns
                    {| ExecutionResult.code := code;
                       ExecutionResult.stdout := printed;
                       ExecutionResult.error := err_text;
                       ExecutionResult.answer := answer;
                       ExecutionResult.transactions_tbl := txn_all;
                       ExecutionResult.inventory_tbl := inv_all |}
              end
          end
      end
  end.

Definition execute_generated_code (py : Python) (code_or_content : string)
    (db : PyVal) (inventory_tbl transactions_tbl : string)
    (user_request : option string) (w : World)
    : World * outcome ExecutionResult.t :=
  match _extract_execute_block code_or_content with
  | Raises e => (w, Raises e)
  | Returns code =>
      let '(_stdout_buf, w1) := new_StringIO w in
      let _old_stdout := sys_stdout w1 in
      let w2 := set_stdout w1 _stdout_buf in
      let ran :=
        py_exec py code (SAFE_GLOBALS user_request)
          (SAFE_LOCALS db inventory_tbl transactions_tbl) w2 in
      (* finally: sys.stdout = _old_stdout *)
      let w3 := set_stdout (f_world (ran_frame ran)) _old_stdout in
      let locals := f_locals (ran_frame ran) in
      let st := f_storage (ran_frame ran) in
      match ran_exn ran with
      | None =>
          (w3, assemble_result code _stdout_buf None locals
                 inventory_tbl transactions_tbl st w3)
      | Some e =>
          if exn_is_Exception e then            (* except Exception *)
            (w3, assemble_result code _stdout_buf
                   (Some (format_exc (exec_site py) e)) locals
                   inventory_tbl transactions_tbl st w3)
          else (w3, Raises e)
      end
  end.


(** ** [generate_llm_code] and [customer_service_agent] *)

(** What the notebook calls outside this file: the helpers of [inv_utils],
    the prompt template and the chat completion service. The HTML display
    of [utils.print_html] changes nothing the executor reads and is left
    out. *)
Record External := mkExternal {
  build_schema_block : list Doc -> list Doc -> string;
  PROMPT_format : string -> string -> string;   (* schema_block, question *)
  chat_completion : string -> string -> string -> option string;
                                                (* model, system, user *)
  create_inventory : World -> World;
  create_transactions : World -> World
}.

Definition generate_llm_code (ext : External) (prompt : string)
    (inventory_tbl transactions_tbl : string) (model : string) (w : World)
    : string :=
  let schema_block :=
    build_schema_block ext (table_all w inventory_tbl)
                           (table_all w transactions_tbl) in
  let prompt := PROMPT_format ext schema_block prompt in
  match chat_completion ext model
          "You write safe, well-commented TinyDB code to handle data questions and updates."
          prompt with
  | Some content => if PyStr.truthy content then content else ""
  | None => ""
  end.

(** The dictionary the agent returns. *)
Module AgentResult.
Record exec_t := mk_exec {
  code : string;
  stdout : string;
  error : option string;
  answer : PyVal;
  inventory_after : list Doc;
  transactions_after : list Doc
}.
Record t := mk {
  full_content : string;
  exec : exec_t
}.
End AgentResult.

Definition customer_service_agent (ext : External) (py : Python)
    (question : string) (db : PyVal) (inventory_tbl transactions_tbl : string)
    (model : string) (reseed : bool) (w : World)
    : World * outcome AgentResult.t :=
  let w0 := if reseed then create_transactions ext (create_inventory ext w)
            else w in
  let full_content :=
    generate_llm_code ext question inventory_tbl transactions_tbl model w0 in
  match execute_generated_code py full_content db inventory_tbl
          transactions_tbl (Some question) w0 with
  | (w1, Raises e) => (w1, Raises e)
  | (w1, Returns exec_res) =>
      (w1, Returns
         {| AgentResult.full_content := full_content;
            AgentResult.exec :=
              {| AgentResult.code := ExecutionResult.code exec_res;
                 AgentResult.stdout := ExecutionResult.stdout exec_res;
                 AgentResult.error := ExecutionResult.error exec_res;
                 AgentResult.answer := ExecutionResult.answer exec_res;
                 AgentResult.inventory_after := table_all w1 inventory_tbl;
                 AgentResult.transactions_after :=
                   table_all w1 transactions_tbl |} |})
  end.


(** ** A small interpreter instance and a sample store

    Used to evaluate the executor on concrete plan texts. The interpreter
    gives each text listed in [demo_compile] the effects that Python gives
    it; it says nothing of other texts. *)

Definition dquote : string := String (ascii_of_nat 34) EmptyString.

(** The stack line of a statement of the executed text:
    two blanks, File, the quoted pseudo file name, the line, the scope. *)
Definition frame_line : string :=
  "  File " ++ dquote ++ "<string>" ++ dquote ++ ", line 1, in <module>"
  ++ PyStr.nl.

(** The stack lines of the call of [exec] at line 374 of the source file,
    when the file is loaded under the name [M5_UGL_1_R.py]. *)
Definition demo_exec_site : string :=
  "  File " ++ dquote ++ "M5_UGL_1_R.py" ++ dquote
  ++ ", line 374, in execute_generated_code" ++ PyStr.nl
  ++ "    exec(code, SAFE_GLOBALS, SAFE_LOCALS)" ++ PyStr.nl.

Definition SyntaxError : PyExn :=
  {| exn_is_Exception := true; exn_type := "SyntaxError";
     exn_msg := "invalid syntax"; exn_frames := "" |}.

Definition ValueError (msg : string) : PyExn :=
  {| exn_is_Exception := true; exn_type := "ValueError"; exn_msg := msg;
     exn_frames := frame_line |}.

Definition AttributeError (msg : string) : PyExn :=
  {| exn_is_Exception := true; exn_type := "AttributeError"; exn_msg := msg;
     exn_frames := frame_line |}.

Definition NameError (x : string) : PyExn :=
  {| exn_is_Exception := true; exn_type := "NameError";
     exn_msg := "name '" ++ x ++ "' is not defined";
     exn_frames := frame_line |}.

Definition ZeroDivisionError : PyExn :=
  {| exn_is_Exception := true; exn_type := "ZeroDivisionError";
     exn_msg := "division by zero"; exn_frames := "" |}.

(** [SystemExit] derives from [BaseException] only. *)
Definition SystemExit : PyExn :=
  {| exn_is_Exception := false; exn_type := "SystemExit"; exn_msg := "";
     exn_frames := frame_line |}.

(** An excerpt of the built-in module. *)
Definition python_builtins : gmap string PyVal :=
  {[ "print" := VObj (OCallable "builtins.print");
     "len" := VObj (OCallable "builtins.len");
     "open" := VObj (OCallable "builtins.open");
     "type" := VObj (OCallable "builtins.type");
     "ValueError" := VObj (OCallable "builtins.ValueError");
     "SystemExit" := VObj (OCallable "builtins.SystemExit");
     "__import__" := VObj (OCallable "builtins.__import__") ]}.

(** The rest of the code runs when the name [x] is bound. *)
Definition with_name (x : string) (k : Plan) : Plan :=
  Lookup x (fun v =>
    match v with
    | Some _ => k
    | None => Raise (NameError x)
    end).

(** Runs [body t] on the table that the name [x] is bound to, for a call
    of its method [attr]. *)
Definition with_table (x attr : string) (body : string -> Plan) : Plan :=
  Lookup x (fun v =>
    match v with
    | Some (VObj (OTable t)) => body t
    | Some _ =>
        Raise (AttributeError ("object has no attribute '" ++ attr ++ "'"))
    | None => Raise (NameError x)
    end).

(** [print(s)] *)
Definition py_print (s : string) (k : Plan) : Plan :=
  with_name "print"
    (Print (s ++ PyStr.nl) (fun ok =>
       if ok then k
       else Raise (ValueError "I/O operation on closed file"))).

(** [import sys] *)
Definition import_sys (k : Plan) : Plan :=
  with_name "__import__" (Assign "sys" (VObj (OModule "sys")) k).

(** [tbl.truncate()] *)
Definition tbl_truncate (t : string) (k : Plan) : Plan :=
  TblWrite t (fun _ => [])
    (fun r => match r with None => k | Some e => Raise e end).

(** [h.close()] and [h.truncate(0)] *)
Definition close_stream (s : Stream) : Stream :=
  {| s_text := s_text s; s_closed := true |}.
Definition truncate_stream (s : Stream) : Stream :=
  {| s_text := ""; s_closed := s_closed s |}.

(** What the tables raise once the storage of the database is closed. *)
Definition closed_storage_error : PyExn :=
  {| exn_is_Exception := true; exn_type := "ValueError";
     exn_msg := "I/O operation on closed file."; exn_frames := "" |}.

(** The stream object of the console, which [sys.__stdout__] names. *)
Definition console : nat := 0.

Definition demo_compile (code : string) : Plan :=
  if String.eqb code "" then Done
  else if String.eqb code "if user_request: answer_text = ''; STATUS = 'success'" then
    Lookup "user_request" (fun v =>
      match v with
      | Some (VStr EmptyString) => Done
      | Some _ => Assign "answer_text" (VStr "") (Assign "STATUS" (VStr "success") Done)
      | None => Raise (NameError "user_request")
      end)
  else if String.eqb code "answer_text = ''; STATUS = 'success'" then
    Assign "answer_text" (VStr "") (Assign "STATUS" (VStr "success") Done)
  else if String.eqb code "answer_text = ''; answer_rows = [1]" then
    Assign "answer_text" (VStr "") (Assign "answer_rows" (VList [VInt 1]) Done)
  else if String.eqb code "answer_text = 'ok'; answer_rows = [1]" then
    Assign "answer_text" (VStr "ok") (Assign "answer_rows" (VList [VInt 1]) Done)
  else if String.eqb code "print('hi')" then py_print "hi" Done
  else if String.eqb code "import sys; sys.stdout = sys.__stdout__; print('hi')" then
    import_sys (SetStdout console (py_print "hi" Done))
  else if String.eqb code "print('hi'); answer_rows = [1]" then
    py_print "hi" (Assign "answer_rows" (VList [VInt 1]) Done)
  else if String.eqb code "print('hi'); raise ValueError('boom')" then
    py_print "hi" (with_name "ValueError" (Raise (ValueError "boom")))
  else if String.eqb code "raise SystemExit" then
    with_name "SystemExit" (Raise SystemExit)
  else if String.eqb code "inventory_tbl.truncate(); transactions_tbl.truncate()" then
    with_table "inventory_tbl" "truncate" (fun i =>
      tbl_truncate i
        (with_table "transactions_tbl" "truncate"
           (fun t => tbl_truncate t Done)))
  else if String.eqb code "inventory_tbl.truncate(); raise ValueError('boom')" then
    with_table "inventory_tbl" "truncate" (fun i =>
      tbl_truncate i (with_name "ValueError" (Raise (ValueError "boom"))))
  else if String.eqb code "rows = inventory_tbl.all(); answer_text = 'seen'" then
    with_table "inventory_tbl" "all" (fun i =>
      TblAll i (fun r =>
        match r with
        | Returns ds =>
            Assign "rows" (VList (map VDict ds))
              (Assign "answer_text" (VStr "seen") Done)
        | Raises e => Raise e
        end))
  else if String.eqb code "import sys; sys.stdout.close()" then
    import_sys (GetStdout (fun h => StreamDo h close_stream Done))
  else if String.eqb code "import sys; print('secret'); sys.stdout.truncate(0)" then
    import_sys
      (py_print "secret" (GetStdout (fun h => StreamDo h truncate_stream Done)))
  else if String.eqb code "B = type('B', (), {'__bool__': lambda s: 1/0}); answer_text = B()" then
    with_name "type"
      (Assign "B" (VObj (OCallable "B"))
         (Assign "answer_text" (VObj (OFaulty ZeroDivisionError)) Done))
  else if String.eqb code "db.close()" then
    Lookup "db" (fun v =>
      match v with
      | Some (VObj ODb) => BreakStorage closed_storage_error Done
      | Some _ => Raise (AttributeError "object has no attribute 'close'")
      | None => Raise (NameError "db")
      end)
  else Raise SyntaxError.

Definition demo_python : Python :=
  {| builtins := python_builtins; compile := demo_compile;
     exec_site := demo_exec_site |}.

Definition aviator : Doc :=
  [("item_id", VStr "SG001"); ("name", VStr "Aviator");
   ("quantity_in_stock", VInt 23); ("price", VInt 80)].

Definition opening_balance : Doc :=
  [("transaction_id", VStr "TXN001"); ("customer_name", VStr "OPENING_BALANCE");
   ("transaction_amount", VInt 500); ("balance_after_transaction", VInt 500)].

Definition demo_world : World :=
  {| tables := {[ "inventory" := [aviator]; "transactions" := [opening_balance] ]};
     sys_stdout := console; streams := {[ console := new_stream ]} |}.

Definition empty_world : World :=
  {| tables := ∅; sys_stdout := console; streams := {[ console := new_stream ]} |}.

Definition demo_run (text : string) (w : World)
    : World * outcome ExecutionResult.t :=
  execute_generated_code demo_python text (VObj ODb) "inventory" "transactions"
    None w.

(** ** Vocabulary of the properties *)

(** What a run did, read off its trace. *)
Definition is_assign (x : string) (ev : Event) : bool :=
  match ev with EAssign y => String.eqb x y | _ => false end.
Definition assigns (x : string) (tr : list Event) : bool :=
  existsb (is_assign x) tr.

Definition is_write (ev : Event) : bool :=
  match ev with EWrite _ => true | _ => false end.
Definition mutates (tr : list Event) : bool := existsb is_write tr.




(** The process state in which the executor starts the plan body: a new
    buffer exists and [sys.stdout] is bound to it. *)
Definition body_world (w : World) : World :=
  set_stdout (snd (new_StringIO w)) (fst (new_StringIO w)).

(** The name spaces and state the plan body starts in, and its run. *)
Definition body_frame (py : Python) (db : PyVal)
    (inventory_tbl transactions_tbl : string) (user_request : option string)
    (w : World) : Frame :=
  exec_frame py (SAFE_GLOBALS user_request)
    (SAFE_LOCALS db inventory_tbl transactions_tbl) (body_world w).

Definition body_run (py : Python) (code : string) (db : PyVal)
    (inventory_tbl transactions_tbl : string) (user_request : option string)
    (w : World) : Ran :=
  run_plan (compile py code)
    (body_frame py db inventory_tbl transactions_tbl user_request w).

(** The body completed or stopped with an exception that [except Exception]
    catches. *)
Definition recorded (o : option PyExn) : bool :=
  match o with None => true | Some e => exn_is_Exception e end.

(** No statement after the [try] block raises: the plan left the capture
    buffer open, the truth tests of the answer chain return, and the tables
    can still be read. *)
Definition after_try_ok (py : Python) (code : string) (db : PyVal)
    (inventory_tbl transactions_tbl : string) (user_request : option string)
    (w : World) : Prop :=
  let fr :=
    ran_frame (body_run py code db inventory_tbl transactions_tbl
                 user_request w) in
  s_closed (stream_of (f_world fr) (fst (new_StringIO w))) = false
  /\ (exists a,
        py_or3 (f_storage fr) (f_world fr)
          (dict_get (f_locals fr) "answer_text")
          (dict_get (f_locals fr) "answer_rows")
          (dict_get (f_locals fr) "answer_json") = Returns a)
  /\ f_storage fr = None.

(** The statuses of the design document: the five business statuses and
    the status of a broken contract. *)
Inductive Status : Type :=
| success | no_match | insufficient_stock | invalid_request
| unsupported_intent | ContractViolation.

(** The bindings the design document enumerates. *)
Definition sandbox_bindings : list string :=
  ["inventory_tbl"; "transactions_tbl"; "db"; "get_current_balance";
   "next_transaction_id"; "Query"; "user_request"].

(** Two texts of the same length that agree up to the case of letters. *)
Fixpoint ci_equal (a b : string) : bool :=
  match a, b with
  | EmptyString, EmptyString => true
  | String x a', String y b' => PyStr.ci_eqb x y && ci_equal a' b'
  | _, _ => false
  end.

(** [pat] occurs somewhere in [s], up to case. *)
Fixpoint occurs (pat s : string) : bool :=
  match Regex.match_literal pat s with
  | Some _ => true
  | None =>
      match s with
      | EmptyString => false
      | String _ s' => occurs pat s'
      end
  end.

(** No character of [pat] matches [h]. *)
Fixpoint avoids (h : ascii) (pat : string) : bool :=
  match pat with
  | EmptyString => true
  | String p pat' => negb (PyStr.ci_eqb p h) && avoids h pat'
  end.

(** [s] holds an opening tag with a closing tag somewhere after it. *)
Definition has_region (s : string) : Prop :=
  exists pre o body c post,
    s = pre ++ o ++ body ++ c ++ post
    /\ ci_equal Regex.open_tag o = true /\ ci_equal Regex.close_tag c = true.

(** [t] is [s] trimmed: [s] without the white space at its two ends, so
    that [t] neither begins nor ends with white space. *)
Definition is_trim_of (s t : string) : Prop :=
  (exists a b,
     s = a ++ t ++ b
     /\ PyStr.all_space a = true /\ PyStr.all_space b = true)
  /\ (forall c r, t = String c r -> PyStr.is_space c = false)
  /\ (forall a c, t = a ++ String c "" -> PyStr.is_space c = false).


(** ** The statements of the design document that the executor does not meet

    Each is written as the document has it; the properties below settle
    them. *)

(** Some reading of the returned dictionary tells a run that finished
    without a fault and never assigned [answer_text] (read as
    [ContractViolation]) from a run that finished with [answer_text] bound
    to a string, the empty one included. *)
Definition reports_contract_violation : Prop :=
  exists status_of : ExecutionResult.t -> Status,
    (forall py text code db inv txn ur w w' r,
        _extract_execute_block text = Returns code ->
        ran_exn (body_run py code db inv txn ur w) = None ->
        assigns "answer_text"
          (ran_trace (body_run py code db inv txn ur w)) = false ->
        execute_generated_code py text db inv txn ur w = (w', Returns r) ->
        status_of r = ContractViolation)
    /\ (forall py text code db inv txn ur w w' r s,
        _extract_execute_block text = Returns code ->
        ran_exn (body_run py code db inv txn ur w) = None ->
        f_locals (ran_frame (body_run py code db inv txn ur w))
          !! "answer_text" = Some (VStr s) ->
        execute_generated_code py text db inv txn ur w = (w', Returns r) ->
        status_of r <> ContractViolation).


(** Extraction fails exactly on the empty text and on texts of white space
    only. *)
Definition fails_iff_blank : Prop :=
  forall text,
    (exists e, _extract_execute_block text = Raises e)
    <-> (text = "" \/ PyStr.all_space text = true).

(** The returned dictionary holds the two collections as they were before
    the plan ran: they can be read off it. *)
Definition result_keeps_before : Prop :=
  exists before_of : ExecutionResult.t -> list Doc * list Doc,
    forall py text db inv txn ur w w' r,
      execute_generated_code py text db inv txn ur w = (w', Returns r) ->
      before_of r = (table_all w inv, table_all w txn).

Definition agent_result_keeps_before : Prop :=
  exists before_of : AgentResult.t -> list Doc * list Doc,
    forall ext py question db inv txn model w w' r,
      customer_service_agent ext py question db inv txn model false w
      = (w', Returns r) ->
      before_of r = (table_all w inv, table_all w txn).

(** The plan body resolves the enumerated names and no other. *)
Definition sees_only_sandbox_bindings : Prop :=
  forall py db inv txn ur w x,
    is_Some (resolve (body_frame py db inv txn ur w) x)
    <-> In x sandbox_bindings.


(** A generator that answers every request with the same tagged plan. *)
Definition demo_external (content : string) : External :=
  {| build_schema_block := fun _ _ => "schema";
     PROMPT_format := fun schema question => schema ++ question;
     chat_completion := fun _ _ _ => Some content;
     create_inventory := fun w => w;
     create_transactions := fun w => w |}.


(** * Properties *)

(** ** Texts *)

Section Strings.

Lemma app_cons (c : ascii) (s t : string) : String c s ++ t = String c (s ++ t).
Proof. reflexivity. Qed.

Lemma app_nil_l (s : string) : "" ++ s = s.
Proof. reflexivity. Qed.

Lemma app_assoc_s (a b c : string) : (a ++ b) ++ c = a ++ (b ++ c).
Proof.
  induction a as [|x a IH]; [reflexivity|].
  rewrite !app_cons. now rewrite IH.
Qed.

Lemma truthy_app_r (a b : string) : PyStr.truthy b = true -> PyStr.truthy (a ++ b) = true.
Proof. destruct a; [rewrite app_nil_l; auto | reflexivity]. Qed.

Lemma ci_equal_truthy (pat o : string) :
  PyStr.truthy pat = true -> ci_equal pat o = true -> PyStr.truthy o = true.
Proof. destruct pat, o; simpl; congruence. Qed.

(** Only the character [<] folds onto [<]. *)
Lemma ci_eqb_lt (h : ascii) : PyStr.ci_eqb "<" h = true -> h = "<"%char.
Proof.
  destruct h as [[] [] [] [] [] [] [] []]; vm_compute; congruence.
Qed.

End Strings.

(** ** The tag pattern *)

Section Pattern.
Import Regex.

Lemma lazy_until_eq (stop s : string) :
  lazy_until stop s =
  match match_literal stop s with
  | Some _ => Some ""
  | None =>
      match s with
      | EmptyString => None
      | String c s' => option_map (String c) (lazy_until stop s')
      end
  end.
Proof. destruct s; reflexivity. Qed.

Lemma occurs_eq (pat s : string) :
  occurs pat s =
  match match_literal pat s with
  | Some _ => true
  | None =>
      match s with
      | EmptyString => false
      | String _ s' => occurs pat s'
      end
  end.
Proof. destruct s; reflexivity. Qed.

Lemma search_eq (s : string) :
  search s =
  match match_here s with
  | Some g => Some g
  | None =>
      match s with
      | EmptyString => None
      | String _ s' => search s'
      end
  end.
Proof. destruct s; reflexivity. Qed.

Lemma match_literal_ci (pat o rest : string) :
  ci_equal pat o = true -> match_literal pat (o ++ rest) = Some rest.
Proof.
  revert o. induction pat as [|p pat IH]; intros [|x o] H; simpl in H;
    try discriminate.
  - reflexivity.
  - apply andb_true_iff in H as [Hx Ho].
    rewrite app_cons. simpl. rewrite Hx. now apply IH.
Qed.

Lemma match_literal_inv (pat s r : string) :
  match_literal pat s = Some r ->
  exists m, s = m ++ r /\ ci_equal pat m = true.
Proof.
  revert s. induction pat as [|p pat IH]; intros s H; simpl in H.
  - injection H as <-. now exists "".
  - destruct s as [|x s]; [discriminate|].
    destruct (PyStr.ci_eqb p x) eqn:Hx; [|discriminate].
    destruct (IH _ H) as (m & -> & Hm).
    exists (String x m). split; [reflexivity|].
    simpl. now rewrite Hx, Hm.
Qed.

(** A match that starts inside [b] cannot run over a following character
    that no character of the pattern matches. *)
Lemma match_literal_within (pat b rest r : string) (h : ascii) :
  avoids h pat = true ->
  match_literal pat (b ++ String h rest) = Some r ->
  exists r', match_literal pat b = Some r'.
Proof.
  revert b. induction pat as [|p pat IH]; intros b Hav H.
  - now exists b.
  - simpl in Hav. apply andb_true_iff in Hav as [Hp Hav].
    apply negb_true_iff in Hp.
    destruct b as [|x b].
    + rewrite app_nil_l in H. simpl in H. now rewrite Hp in H.
    + rewrite app_cons in H. simpl in H |- *.
      destruct (PyStr.ci_eqb p x); [|discriminate].
      now apply IH.
Qed.

(** For a tag, which starts with [<] and holds no other [<]: no match
    starts inside [b] and ends in a text that begins with [<]. *)
Lemma tag_no_straddle (tail b rest : string) :
  avoids "<" tail = true ->
  match_literal (String "<" tail) b = None ->
  b <> "" ->
  match_literal (String "<" tail) (b ++ String "<" rest) = None.
Proof.
  intros Hav Hb Hne.
  destruct b as [|y b]; [congruence|].
  rewrite app_cons. simpl in Hb |- *.
  destruct (PyStr.ci_eqb "<" y); [|reflexivity].
  destruct (match_literal tail (b ++ String "<" rest)) as [r|] eqn:E;
    [|reflexivity].
  destruct (match_literal_within _ _ _ _ _ Hav E) as [r' Hr'].
  congruence.
Qed.

Lemma ci_equal_tag_head (tail c : string) :
  ci_equal (String "<" tail) c = true -> exists c', c = String "<" c'.
Proof.
  destruct c as [|h c]; simpl; [discriminate|].
  intros H. apply andb_true_iff in H as [Hh _].
  apply ci_eqb_lt in Hh as ->. now exists c.
Qed.

Lemma lazy_until_first (body c post : string) :
  occurs close_tag body = false ->
  ci_equal close_tag c = true ->
  lazy_until close_tag (body ++ c ++ post) = Some body.
Proof.
  intros Hocc Hc.
  destruct (ci_equal_tag_head _ _ Hc) as [c' ->].
  induction body as [|x body IH].
  - rewrite app_nil_l, lazy_until_eq.
    now rewrite (match_literal_ci _ _ _ Hc).
  - rewrite occurs_eq in Hocc.
    destruct (match_literal close_tag (String x body)) eqn:Hm; [discriminate|].
    assert (Hnone : match_literal close_tag
                      (String x body ++ String "<" c' ++ post) = None).
    { change (String "<" c' ++ post) with (String "<" (c' ++ post)).
      apply tag_no_straddle; [reflexivity | exact Hm | discriminate]. }
    rewrite app_cons in Hnone |- *.
    rewrite lazy_until_eq, Hnone, (IH Hocc). reflexivity.
Qed.

Lemma search_skip (pre rest : string) :
  occurs open_tag pre = false ->
  search (pre ++ String "<" rest) = search (String "<" rest).
Proof.
  intros Hocc. induction pre as [|x pre IH]; [reflexivity|].
  rewrite occurs_eq in Hocc.
  destruct (match_literal open_tag (String x pre)) eqn:Hm; [discriminate|].
  assert (Hnone : match_literal open_tag
                    (String x pre ++ String "<" rest) = None).
  { apply tag_no_straddle; [reflexivity | exact Hm | discriminate]. }
  rewrite app_cons in Hnone |- *.
  rewrite search_eq. unfold match_here at 1. rewrite Hnone.
  now apply IH.
Qed.

Lemma search_first_region (pre o body c post : string) :
  ci_equal open_tag o = true ->
  ci_equal close_tag c = true ->
  occurs open_tag pre = false ->
  occurs close_tag body = false ->
  search (pre ++ o ++ body ++ c ++ post) = Some body.
Proof.
  intros Ho Hc Hpre Hbody.
  destruct (ci_equal_tag_head _ _ Ho) as [o' Eo].
  rewrite Eo, app_cons, (search_skip _ _ Hpre), <- app_cons, <- Eo.
  assert (Hh : match_here (o ++ body ++ c ++ post) = Some body).
  { unfold match_here. rewrite (match_literal_ci _ _ _ Ho).
    now apply lazy_until_first. }
  now rewrite search_eq, Hh.
Qed.

Lemma lazy_until_inv (stop s g : string) :
  lazy_until stop s = Some g ->
  exists c post, s = g ++ c ++ post /\ ci_equal stop c = true.
Proof.
  revert g. induction s as [|x s IH]; intros g H; simpl in H.
  - destruct (match_literal stop "") as [r|] eqn:Hm; [|discriminate].
    injection H as <-.
    destruct (match_literal_inv _ _ _ Hm) as (m & E & Hci).
    exists m, r. now rewrite app_nil_l.
  - destruct (match_literal stop (String x s)) as [r|] eqn:Hm.
    + injection H as <-.
      destruct (match_literal_inv _ _ _ Hm) as (m & E & Hci).
      exists m, r. now rewrite app_nil_l.
    + destruct (lazy_until stop s) as [g'|] eqn:Hl; [|discriminate].
      injection H as <-.
      destruct (IH _ eq_refl) as (c & post & -> & Hci).
      exists c, post. now rewrite app_cons.
Qed.

Lemma match_here_inv (s g : string) :
  match_here s = Some g ->
  exists o c post,
    s = o ++ g ++ c ++ post
    /\ ci_equal open_tag o = true /\ ci_equal close_tag c = true.
Proof.
  unfold match_here. intros H.
  destruct (match_literal open_tag s) as [rest|] eqn:Hm; [|discriminate].
  destruct (match_literal_inv _ _ _ Hm) as (o & -> & Ho).
  destruct (lazy_until_inv _ _ _ H) as (c & post & -> & Hc).
  now exists o, c, post.
Qed.

Lemma search_inv (s g : string) : search s = Some g -> has_region s.
Proof.
  induction s as [|x s IH]; simpl; intros H.
  - destruct (match_here "") as [g'|] eqn:Hh; [|discriminate].
    destruct (match_here_inv _ _ Hh) as (o & c & post & E & Ho & Hc).
    now exists "", o, g', c, post.
  - destruct (match_here (String x s)) as [g'|] eqn:Hh.
    + destruct (match_here_inv _ _ Hh) as (o & c & post & E & Ho & Hc).
      now exists "", o, g', c, post.
    + destruct (IH H) as (pre & o & body & c & post & -> & Ho & Hc).
      now exists (String x pre), o, body, c, post.
Qed.

End Pattern.


(** ** Stripping *)

Section Stripping.
Import PyStr.

Lemma app_eq_nil_s (a b : string) : a ++ b = "" -> a = "" /\ b = "".
Proof. destruct a; [rewrite app_nil_l; auto | rewrite app_cons; discriminate]. Qed.

Lemma lstrip_split (s : string) :
  exists a, s = a ++ lstrip s /\ all_space a = true.
Proof.
  induction s as [|c s (a & E & Ha)]; [now exists ""|].
  simpl. destruct (is_space c) eqn:Hc.
  - exists (String c a). rewrite app_cons, <- E. simpl. now rewrite Hc, Ha.
  - now exists "".
Qed.

Lemma rstrip_split (s : string) :
  exists b, s = rstrip s ++ b /\ all_space b = true.
Proof.
  induction s as [|c s (b & E & Hb)]; [now exists ""|].
  simpl. destruct (rstrip s) as [|d r] eqn:Hr.
  - rewrite app_nil_l in E. subst b. destruct (is_space c) eqn:Hc.
    + exists (String c s). rewrite app_nil_l. simpl. now rewrite Hc, Hb.
    + exists s. now rewrite app_cons, app_nil_l.
  - exists b. now rewrite !app_cons, <- app_cons, <- E.
Qed.

(** What [strip] returns is a piece of its argument. *)
Lemma strip_split (s : string) : exists a b, s = a ++ strip s ++ b.
Proof.
  destruct (lstrip_split s) as (a & Ea & _).
  destruct (rstrip_split (lstrip s)) as (b & Eb & _).
  exists a, b. unfold strip. now rewrite <- Eb.
Qed.

Lemma lstrip_head (s : string) (c : ascii) (r : string) :
  lstrip s = String c r -> is_space c = false.
Proof.
  induction s as [|x s IH]; simpl; [discriminate|].
  destruct (is_space x) eqn:Hx; [exact IH|].
  intros H. injection H as <- _. exact Hx.
Qed.

Lemma rstrip_cons (c : ascii) (r : string) :
  is_space c = false -> rstrip (String c r) = String c (rstrip r).
Proof. intros Hc. simpl. rewrite Hc. now destruct (rstrip r). Qed.

Lemma rstrip_idem (s : string) : rstrip (rstrip s) = rstrip s.
Proof.
  induction s as [|c s IH]; [reflexivity|].
  simpl. destruct (rstrip s) as [|d r] eqn:Hr.
  - destruct (is_space c) eqn:Hc; [reflexivity|]. simpl. now rewrite Hc.
  - change (rstrip (String c (String d r)))
      with (match rstrip (String d r) with
            | EmptyString => if is_space c then EmptyString else String c EmptyString
            | x => String c x
            end).
    now rewrite IH.
Qed.

Lemma rstrip_last (s a : string) (c : ascii) :
  rstrip s = a ++ String c "" -> is_space c = false.
Proof.
  revert a. induction s as [|x s IH]; intros a.
  - simpl. intros H. symmetry in H. apply app_eq_nil_s in H as [_ H].
    discriminate H.
  - simpl. destruct (rstrip s) as [|d r] eqn:Hr.
    + destruct (is_space x) eqn:Hx.
      * intros H. symmetry in H. apply app_eq_nil_s in H as [_ H].
        discriminate H.
      * destruct a as [|y a].
        -- rewrite app_nil_l. intros H. injection H as <-. exact Hx.
        -- rewrite app_cons. intros H. injection H as _ H.
           symmetry in H. apply app_eq_nil_s in H as [_ H]. discriminate H.
    + destruct a as [|y a].
      * rewrite app_nil_l. intros H. discriminate H.
      * rewrite app_cons. intros H. injection H as _ H. exact (IH a H).
Qed.

Lemma strip_head (s : string) (c : ascii) (r : string) :
  strip s = String c r -> is_space c = false.
Proof.
  unfold strip. destruct (lstrip s) as [|d u] eqn:Hl; [discriminate|].
  pose proof (lstrip_head _ _ _ Hl) as Hd.
  rewrite (rstrip_cons _ _ Hd). intros H. injection H as <- _. exact Hd.
Qed.

Lemma strip_idem (s : string) : strip (strip s) = strip s.
Proof.
  unfold strip at 1. destruct (strip s) as [|c r] eqn:E; [reflexivity|].
  pose proof (strip_head _ _ _ E) as Hc.
  simpl lstrip. rewrite Hc. rewrite <- E. unfold strip. apply rstrip_idem.
Qed.

End Stripping.


(** ** The pattern on longer and shorter texts *)

Section Substrings.
Import Regex.

Lemma match_literal_app (pat s r t : string) :
  match_literal pat s = Some r -> match_literal pat (s ++ t) = Some (r ++ t).
Proof.
  revert s. induction pat as [|p pat IH]; intros s H; simpl in H.
  - injection H as <-. reflexivity.
  - destruct s as [|x s]; [discriminate|].
    rewrite app_cons. simpl.
    destruct (PyStr.ci_eqb p x); [now apply IH | discriminate].
Qed.

Lemma lazy_until_app (stop s g t : string) :
  lazy_until stop s = Some g -> exists g', lazy_until stop (s ++ t) = Some g'.
Proof.
  revert g. induction s as [|c s IH]; intros g H;
    rewrite lazy_until_eq in H; rewrite lazy_until_eq.
  - destruct (match_literal stop "") as [r|] eqn:Hm; [|discriminate].
    rewrite (match_literal_app _ _ _ t Hm). eauto.
  - destruct (match_literal stop (String c s ++ t)) as [r'|] eqn:Hm'; [eauto|].
    destruct (match_literal stop (String c s)) as [r|] eqn:Hm.
    + rewrite (match_literal_app _ _ _ t Hm) in Hm'. discriminate.
    + rewrite app_cons.
      destruct (lazy_until stop s) as [g0|] eqn:Hl; [|discriminate].
      destruct (IH _ eq_refl) as [g' ->]. simpl. eauto.
Qed.

Lemma match_here_app (s g t : string) :
  match_here s = Some g -> exists g', match_here (s ++ t) = Some g'.
Proof.
  unfold match_here.
  destruct (match_literal open_tag s) as [rest|] eqn:Hm; [|discriminate].
  rewrite (match_literal_app _ _ _ t Hm). apply lazy_until_app.
Qed.

Lemma search_app_r (s g t : string) :
  search s = Some g -> exists g', search (s ++ t) = Some g'.
Proof.
  induction s as [|c s IH]; rewrite search_eq; intros H;
    rewrite (search_eq (_ ++ t)).
  - destruct (match_here "") as [g0|] eqn:Hh; [|discriminate].
    destruct (match_here_app _ _ t Hh) as [g' ->]. eauto.
  - destruct (match_here (String c s)) as [g0|] eqn:Hh.
    + destruct (match_here_app _ _ t Hh) as [g' ->]. eauto.
    + destruct (match_here (String c s ++ t)); [eauto|].
      rewrite app_cons. now apply IH.
Qed.

Lemma search_app_l (a s g : string) :
  search s = Some g -> exists g', search (a ++ s) = Some g'.
Proof.
  intros H. induction a as [|c a [g' IH]]; [rewrite app_nil_l; eauto|].
  rewrite app_cons, search_eq.
  destruct (match_here (String c (a ++ s))); eauto.
Qed.

(** A match in a piece of a text gives a match in the text. *)
Lemma search_within (a s b g : string) :
  search s = Some g -> exists g', search (a ++ s ++ b) = Some g'.
Proof.
  intros H. destruct (search_app_r _ _ b H) as [g1 H1].
  exact (search_app_l a _ _ H1).
Qed.

Lemma lazy_until_finds (stop x c post : string) :
  ci_equal stop c = true ->
  exists g, lazy_until stop (x ++ c ++ post) = Some g.
Proof.
  intros Hc. induction x as [|y x [g IH]].
  - rewrite app_nil_l, lazy_until_eq, (match_literal_ci _ _ _ Hc). eauto.
  - rewrite lazy_until_eq.
    destruct (match_literal stop _); [eauto|].
    rewrite app_cons, IH. simpl. eauto.
Qed.

(** The search succeeds exactly on the texts that hold a pair of tags. *)
Lemma search_complete (s : string) :
  has_region s -> exists g, search s = Some g.
Proof.
  intros (pre & o & body & c & post & -> & Ho & Hc).
  apply search_app_l with (g := match lazy_until close_tag (body ++ c ++ post)
                                with Some g => g | None => "" end).
  destruct (lazy_until_finds close_tag body c post Hc) as [g Hg].
  rewrite Hg, search_eq. unfold match_here.
  now rewrite (match_literal_ci _ _ _ Ho), Hg.
Qed.

Lemma occurs_app_r (pat s t : string) :
  occurs pat s = true -> occurs pat (s ++ t) = true.
Proof.
  induction s as [|c s IH]; rewrite occurs_eq; intros H;
    rewrite (occurs_eq _ (_ ++ t)).
  - destruct (match_literal pat "") as [r|] eqn:Hm; [|discriminate].
    now rewrite (match_literal_app _ _ _ t Hm).
  - destruct (match_literal pat (String c s)) as [r|] eqn:Hm.
    + now rewrite (match_literal_app _ _ _ t Hm).
    + destruct (match_literal pat (String c s ++ t)); [reflexivity|].
      rewrite app_cons. now apply IH.
Qed.

Lemma occurs_app_l (pat a s : string) :
  occurs pat s = true -> occurs pat (a ++ s) = true.
Proof.
  intros H. induction a as [|c a IH]; [exact H|].
  rewrite app_cons, occurs_eq.
  now destruct (match_literal pat (String c (a ++ s))).
Qed.

Lemma occurs_within (pat a s b : string) :
  occurs pat (a ++ s ++ b) = false -> occurs pat s = false.
Proof.
  intros H. destruct (occurs pat s) eqn:E; [|reflexivity].
  now rewrite (occurs_app_l _ a _ (occurs_app_r _ _ b E)) in H.
Qed.

Lemma has_region_occurs (s : string) :
  has_region s -> occurs close_tag s = true.
Proof.
  intros (pre & o & body & c & post & -> & _ & Hc).
  rewrite <- !app_assoc_s. rewrite app_assoc_s.
  apply occurs_app_l. rewrite occurs_eq.
  now rewrite (match_literal_ci _ _ _ Hc).
Qed.

(** The group that the lazy star captures stops before the first
    occurrence of the literal that follows it. *)
Lemma lazy_until_shortest (stop s g : string) :
  match_literal stop "" = None ->
  lazy_until stop s = Some g -> occurs stop g = false.
Proof.
  intros Hnil. revert g.
  induction s as [|c s IH]; intros g H; rewrite lazy_until_eq in H.
  - rewrite Hnil in H. discriminate.
  - destruct (match_literal stop (String c s)) as [r|] eqn:Hm.
    + injection H as <-. rewrite occurs_eq. now rewrite Hnil.
    + destruct (lazy_until stop s) as [g0|] eqn:Hl; [|discriminate].
      injection H as <-.
      destruct (lazy_until_inv _ _ _ Hl) as (k & post & -> & _).
      rewrite occurs_eq.
      destruct (match_literal stop (String c g0)) as [r|] eqn:Hm0.
      * rewrite <- app_cons in Hm.
        rewrite (match_literal_app _ _ _ (k ++ post) Hm0) in Hm. discriminate.
      * now apply IH.
Qed.

Lemma search_group_no_close (s g : string) :
  search s = Some g -> occurs close_tag g = false.
Proof.
  induction s as [|c s IH]; rewrite search_eq; unfold match_here.
  - simpl. discriminate.
  - destruct (match_literal open_tag (String c s)) as [rest|].
    + destruct (lazy_until close_tag rest) as [g0|] eqn:Hl.
      * intros H. injection H as <-.
        exact (lazy_until_shortest close_tag rest g0 eq_refl Hl).
      * exact IH.
    + exact IH.
Qed.

Lemma strip_no_region (t : string) :
  Regex.search t = None -> Regex.search (PyStr.strip t) = None.
Proof.
  intros H. destruct (search (PyStr.strip t)) as [g|] eqn:E; [|reflexivity].
  destruct (strip_split t) as (a & b & Et).
  destruct (search_within a _ b _ E) as [g' Hg'].
  rewrite <- Et, H in Hg'. discriminate.
Qed.

Lemma group_no_region (g : string) :
  occurs close_tag g = false -> Regex.search (PyStr.strip g) = None.
Proof.
  intros H. destruct (search (PyStr.strip g)) as [g'|] eqn:E; [|reflexivity].
  pose proof (has_region_occurs _ (search_inv _ _ E)) as Ho.
  destruct (strip_split g) as (a & b & Eg).
  rewrite Eg in H. now rewrite (occurs_within _ _ _ _ H) in Ho.
Qed.

End Substrings.

Lemma search_inv_group (s g : string) :
  Regex.search s = Some g ->
  exists pre o c post,
    s = pre ++ o ++ g ++ c ++ post
    /\ ci_equal Regex.open_tag o = true /\ ci_equal Regex.close_tag c = true.
Proof.
  induction s as [|x s IH]; rewrite search_eq; intros H.
  - destruct (Regex.match_here "") as [g'|] eqn:Hh; [|discriminate].
    injection H as ->.
    destruct (match_here_inv _ _ Hh) as (o & c & post & E & Ho & Hc).
    now exists "", o, c, post.
  - destruct (Regex.match_here (String x s)) as [g'|] eqn:Hh.
    + injection H as ->.
      destruct (match_here_inv _ _ Hh) as (o & c & post & E & Ho & Hc).
      now exists "", o, c, post.
    + destruct (IH H) as (pre & o & c & post & -> & Ho & Hc).
      now exists (String x pre), o, c, post.
Qed.


Section Blank.
Import Regex.

Lemma space_is_not_lt (c : ascii) :
  PyStr.is_space c = true -> PyStr.ci_eqb "<" c = false.
Proof.
  destruct c as [[] [] [] [] [] [] [] []]; vm_compute; congruence.
Qed.

Lemma search_blank (s : string) : PyStr.all_space s = true -> search s = None.
Proof.
  induction s as [|c s IH]; [reflexivity|].
  simpl PyStr.all_space. intros H. apply andb_true_iff in H as [Hc Hs].
  rewrite search_eq.
  assert (Hh : match_here (String c s) = None).
  { unfold match_here, open_tag. simpl match_literal.
    now rewrite (space_is_not_lt _ Hc). }
  rewrite Hh. now apply IH.
Qed.

Lemma strip_blank (s : string) : PyStr.all_space s = true -> PyStr.strip s = "".
Proof.
  unfold PyStr.strip. induction s as [|c s IH]; [reflexivity|].
  simpl. intros H. apply andb_true_iff in H as [Hc Hs].
  rewrite Hc. now apply IH.
Qed.

End Blank.


Lemma has_region_occurs_open (s : string) :
  has_region s -> occurs Regex.open_tag s = true.
Proof.
  intros (pre & o & body & c & post & -> & Ho & _).
  apply occurs_app_l. rewrite occurs_eq.
  now rewrite (match_literal_ci _ _ _ Ho).
Qed.


(** ** Runs of a plan body *)

Section Runs.


Ltac plan_induction p :=
  induction p as [|e|y v k IH|y k IH|s k IH|k IH|h k IH|h f k IH|h k IH
                 |t k IH|t f k IH|e k IH].

(** A name the body never assigns keeps its binding in the locals. *)
Lemma run_plan_locals (p : Plan) (x : string) :
  forall fr,
    assigns x (ran_trace (run_plan p fr)) = false ->
    f_locals (ran_frame (run_plan p fr)) !! x = f_locals fr !! x.
Proof.
  plan_induction p; intros fr Hn; simpl in *; try reflexivity;
    try (rewrite IH by exact Hn; reflexivity).
  - apply orb_false_iff in Hn as [Hy Hn].
    rewrite IH by exact Hn. simpl.
    apply String.eqb_neq in Hy.
    now rewrite lookup_insert_ne.
  - destruct (s_closed _); simpl in *; rewrite IH by exact Hn; reflexivity.
  - destruct (f_storage fr); simpl in *; rewrite IH by exact Hn; reflexivity.
Qed.

(** A body that writes no table leaves every table as it was. *)
Lemma run_plan_tables (p : Plan) :
  forall fr,
    mutates (ran_trace (run_plan p fr)) = false ->
    tables (f_world (ran_frame (run_plan p fr))) = tables (f_world fr).
Proof.
  plan_induction p; intros fr Hn; simpl in *; try reflexivity;
    try (rewrite IH by exact Hn; reflexivity).
  - destruct (s_closed _); simpl in *; rewrite IH by exact Hn; reflexivity.
  - destruct (f_storage fr); simpl in *; [|discriminate].
    rewrite IH by exact Hn; reflexivity.
Qed.


End Runs.

(** ** The executor *)

Section Executor.

Lemma execute_eq py text code db inv txn ur w :
  _extract_execute_block text = Returns code ->
  execute_generated_code py text db inv txn ur w =
  let ran := body_run py code db inv txn ur w in
  let buf := fst (new_StringIO w) in
  let w3 := set_stdout (f_world (ran_frame ran)) (sys_stdout w) in
  let L := f_locals (ran_frame ran) in
  let st := f_storage (ran_frame ran) in
  match ran_exn ran with
  | None => (w3, assemble_result code buf None L inv txn st w3)
  | Some e =>
      if exn_is_Exception e then
        (w3, assemble_result code buf (Some (format_exc (exec_site py) e))
               L inv txn st w3)
      else (w3, Raises e)
  end.
Proof. intros H. unfold execute_generated_code. rewrite H. reflexivity. Qed.

Lemma extract_empty_iff (text : string) :
  (exists e, _extract_execute_block text = Raises e) <-> text = "".
Proof.
  unfold _extract_execute_block. split.
  - intros [e H]. destruct text; [reflexivity|].
    unfold PyStr.truthy, negb in H. destruct (Regex.search _); discriminate.
  - intros ->. eexists. reflexivity.
Qed.


(** The process state a call leaves behind: the one the body reached, with
    [sys.stdout] bound as before the call. *)
Lemma execute_world py text code db inv txn ur w :
  _extract_execute_block text = Returns code ->
  fst (execute_generated_code py text db inv txn ur w)
  = set_stdout (f_world (ran_frame (body_run py code db inv txn ur w)))
      (sys_stdout w).
Proof.
  intros H. rewrite (execute_eq _ _ _ _ _ _ _ _ H). cbv zeta.
  destruct (ran_exn _) as [e|]; [destruct (exn_is_Exception e)|]; reflexivity.
Qed.

(** A call whose body completed or stopped with a recorded exception ends
    with the statements after the [try] block. *)
Lemma execute_returns py text code db inv txn ur w :
  _extract_execute_block text = Returns code ->
  recorded (ran_exn (body_run py code db inv txn ur w)) = true ->
  let ran := body_run py code db inv txn ur w in
  let w3 := set_stdout (f_world (ran_frame ran)) (sys_stdout w) in
  execute_generated_code py text db inv txn ur w
  = (w3, assemble_result code (fst (new_StringIO w))
           (option_map (format_exc (exec_site py)) (ran_exn ran))
           (f_locals (ran_frame ran)) inv txn (f_storage (ran_frame ran)) w3).
Proof.
  intros Hx Hrec. rewrite (execute_eq _ _ _ _ _ _ _ _ Hx). cbv zeta.
  destruct (ran_exn _) as [e|]; [|reflexivity].
  simpl in Hrec. now rewrite Hrec.
Qed.

(** A call that returns a dictionary extracted a code, ran a body that
    completed or stopped with a recorded exception, and got the dictionary
    from the statements after the [try] block. *)
Lemma execute_returns_inv py text db inv txn ur w w' r :
  execute_generated_code py text db inv txn ur w = (w', Returns r) ->
  exists code,
    _extract_execute_block text = Returns code
    /\ recorded (ran_exn (body_run py code db inv txn ur w)) = true
    /\ w' = set_stdout (f_world (ran_frame (body_run py code db inv txn ur w)))
              (sys_stdout w)
    /\ assemble_result code (fst (new_StringIO w))
         (option_map (format_exc (exec_site py))
            (ran_exn (body_run py code db inv txn ur w)))
         (f_locals (ran_frame (body_run py code db inv txn ur w))) inv txn
         (f_storage (ran_frame (body_run py code db inv txn ur w))) w'
       = Returns r.
Proof.
  intros Hrun.
  destruct (_extract_execute_block text) as [code|e] eqn:Hx.
  - exists code. split; [reflexivity|].
    rewrite (execute_eq _ _ _ _ _ _ _ _ Hx) in Hrun. cbv zeta in Hrun.
    destruct (ran_exn _) as [e|]; [destruct (exn_is_Exception e) eqn:He|];
      try discriminate; injection Hrun as <- Hr; simpl; rewrite ?He; auto.
  - unfold execute_generated_code in Hrun. rewrite Hx in Hrun. discriminate.
Qed.

Lemma truthy_set_stdout st w h v :
  truthy st (set_stdout w h) v = truthy st w v.
Proof. destruct v as [| | | | | | |[]]; reflexivity. Qed.

Lemma py_or3_set_stdout st w h a b c :
  py_or3 st (set_stdout w h) a b c = py_or3 st w a b c.
Proof.
  unfold py_or3, py_or. now rewrite !truthy_set_stdout.
Qed.

(** What a dictionary built after the [try] block tells. *)
Lemma assemble_inv code buf err L inv txn st w r :
  assemble_result code buf err L inv txn st w = Returns r ->
  s_closed (stream_of w buf) = false
  /\ st = None
  /\ py_or3 st w (dict_get L "answer_text") (dict_get L "answer_rows")
       (dict_get L "answer_json") = Returns (ExecutionResult.answer r)
  /\ ExecutionResult.code r = code
  /\ ExecutionResult.stdout r = PyStr.strip (s_text (stream_of w buf))
  /\ ExecutionResult.error r = err
  /\ ExecutionResult.transactions_tbl r = table_all w txn
  /\ ExecutionResult.inventory_tbl r = table_all w inv.
Proof.
  unfold assemble_result, getvalue.
  destruct (s_closed (stream_of w buf)); [discriminate|].
  destruct (py_or3 st w _ _ _) as [a|e]; [|discriminate].
  destruct st as [e|]; simpl; [discriminate|].
  intros H. injection H as <-. simpl. repeat split.
Qed.

(** The statements after the [try] block build a dictionary when none of
    them raises. *)
Lemma assemble_ok code buf err L inv txn w a :
  s_closed (stream_of w buf) = false ->
  py_or3 None w (dict_get L "answer_text") (dict_get L "answer_rows")
    (dict_get L "answer_json") = Returns a ->
  assemble_result code buf err L inv txn None w
  = Returns {| ExecutionResult.code := code;
               ExecutionResult.stdout := PyStr.strip (s_text (stream_of w buf));
               ExecutionResult.error := err;
               ExecutionResult.answer := a;
               ExecutionResult.transactions_tbl := table_all w txn;
               ExecutionResult.inventory_tbl := table_all w inv |}.
Proof.
  intros Hc Ha. unfold assemble_result, getvalue. now rewrite Hc, Ha.
Qed.

Lemma body_world_tables (w : World) : tables (body_world w) = tables w.
Proof. reflexivity. Qed.

Lemma body_world_stdout (w : World) :
  sys_stdout (body_world w) = fst (new_StringIO w).
Proof. reflexivity. Qed.


(** The two snapshots of a returned dictionary are the tables of the state
    the call ends in. *)
Lemma execute_snapshots py text db inv txn ur w w' r :
  execute_generated_code py text db inv txn ur w = (w', Returns r) ->
  ExecutionResult.inventory_tbl r = table_all w' inv
  /\ ExecutionResult.transactions_tbl r = table_all w' txn.
Proof.
  intros Hrun.
  destruct (execute_returns_inv _ _ _ _ _ _ _ _ _ Hrun)
    as (code & _ & _ & _ & Ha).
  destruct (assemble_inv _ _ _ _ _ _ _ _ _ Ha)
    as (_ & _ & _ & _ & _ & _ & Ht & Hi).
  now split.
Qed.

(** The call returns a dictionary exactly when the text is not empty, the
    body completed or stopped with a recorded exception, and no statement
    after the [try] block raises. *)
Lemma execute_returns_iff py text code db inv txn ur w :
  _extract_execute_block text = Returns code ->
  (exists w' r, execute_generated_code py text db inv txn ur w = (w', Returns r))
  <-> recorded (ran_exn (body_run py code db inv txn ur w)) = true
      /\ after_try_ok py code db inv txn ur w.
Proof.
  intros Hx. split.
  - intros (w' & r & Hrun).
    destruct (execute_returns_inv _ _ _ _ _ _ _ _ _ Hrun)
      as (code' & Hx' & Hrec & Hw & Ha).
    rewrite Hx in Hx'. injection Hx' as <-.
    split; [exact Hrec|].
    destruct (assemble_inv _ _ _ _ _ _ _ _ _ Ha) as (Hc & Hst & Hor & _).
    subst w'. unfold after_try_ok. cbv zeta.
    split; [exact Hc|]. split; [|exact Hst].
    rewrite py_or3_set_stdout in Hor. eauto.
  - intros (Hrec & Hc & (a & Ha) & Hst).
    rewrite (execute_returns _ _ _ _ _ _ _ _ Hx Hrec). cbv zeta.
    rewrite Hst in *. eexists _, _. f_equal.
    apply assemble_ok with (a := a).
    + exact Hc.
    + now rewrite py_or3_set_stdout.
Qed.

End Executor.

(** C10: after every call in which extraction yields a plan body,
    [sys.stdout] is bound to what it was bound to before the call, whether
    the body completes, raises an exception that the executor records, or
    raises one that leaves the call. *)
Theorem stdout_restored py text code db inv txn ur w :
  _extract_execute_block text = Returns code ->
  sys_stdout (fst (execute_generated_code py text db inv txn ur w))
  = sys_stdout w
  /\ (forall e, ran_exn (body_run py code db inv txn ur w) = Some e ->
        sys_stdout (fst (execute_generated_code py text db inv txn ur w))
        = sys_stdout w).
Proof.
  intros H. rewrite (execute_world _ _ _ _ _ _ _ _ H).
  split; [reflexivity | intros e _; reflexivity].
Qed.

Lemma stdout_restored_witness :
  _extract_execute_block "print('hi'); raise ValueError('boom')"
  = Returns "print('hi'); raise ValueError('boom')"
  /\ sys_stdout (fst (demo_run "print('hi'); raise ValueError('boom')" demo_world))
     = sys_stdout demo_world
  /\ (forall e,
        ran_exn (body_run demo_python "print('hi'); raise ValueError('boom')"
                   (VObj ODb) "inventory" "transactions" None demo_world) = Some e ->
        sys_stdout (fst (demo_run "print('hi'); raise ValueError('boom')" demo_world))
        = sys_stdout demo_world).
Proof.
  split; [reflexivity|].
  apply (stdout_restored demo_python "print('hi'); raise ValueError('boom')"
           "print('hi'); raise ValueError('boom')").
  reflexivity.
Defined.

(** C7: a plan body that writes no table leaves the store as it was, and
    the snapshots in the returned dictionary are the collections as they
    were before the call. *)
Theorem read_only_plan_keeps_store py text code db inv txn ur w :
  _extract_execute_block text = Returns code ->
  mutates (ran_trace (body_run py code db inv txn ur w)) = false ->
  tables (fst (execute_generated_code py text db inv txn ur w)) = tables w
  /\ (forall r,
        snd (execute_generated_code py text db inv txn ur w) = Returns r ->
        ExecutionResult.inventory_tbl r = table_all w inv
        /\ ExecutionResult.transactions_tbl r = table_all w txn).
Proof.
  intros Hx Hro.
  pose proof (run_plan_tables _ _ Hro) as Ht.
  change (tables (f_world (ran_frame (body_run py code db inv txn ur w)))
          = tables w) in Ht.
  assert (Hkeep : tables (fst (execute_generated_code py text db inv txn ur w))
                  = tables w).
  { rewrite (execute_world _ _ _ _ _ _ _ _ Hx). exact Ht. }
  split; [exact Hkeep|].
  intros r Hr.
  destruct (execute_generated_code py text db inv txn ur w) as [w' o] eqn:Hrun.
  simpl in Hr, Hkeep. subst o.
  destruct (execute_snapshots _ _ _ _ _ _ _ _ _ Hrun) as [Hi Hl].
  unfold table_all in *. rewrite Hkeep in Hi, Hl. now split.
Qed.

Lemma read_only_plan_keeps_store_witness :
  _extract_execute_block "rows = inventory_tbl.all(); answer_text = 'seen'"
  = Returns "rows = inventory_tbl.all(); answer_text = 'seen'"
  /\ mutates (ran_trace (body_run demo_python
                "rows = inventory_tbl.all(); answer_text = 'seen'"
                (VObj ODb) "inventory" "transactions" None demo_world)) = false
  /\ tables (fst (demo_run "rows = inventory_tbl.all(); answer_text = 'seen'"
                 demo_world)) = tables demo_world
  /\ (forall r,
        snd (demo_run "rows = inventory_tbl.all(); answer_text = 'seen'" demo_world)
        = Returns r ->
        ExecutionResult.inventory_tbl r = table_all demo_world "inventory"
        /\ ExecutionResult.transactions_tbl r = table_all demo_world "transactions").
Proof.
  split; [reflexivity|]. split; [vm_compute; reflexivity|].
  apply (read_only_plan_keeps_store demo_python
           "rows = inventory_tbl.all(); answer_text = 'seen'"
           "rows = inventory_tbl.all(); answer_text = 'seen'");
    [reflexivity | vm_compute; reflexivity].
Defined.

(** C9: in every dictionary the call returns, the answer field is the
    first truthy one of [answer_text], [answer_rows] and [answer_json] as
    the plan left them in its locals (an unset name reads as [None]), and
    [answer_json] when neither of the first two is truthy; so an
    [answer_text] that is unset, bound to the empty string or to any falsy
    value gives way to [answer_rows], then [answer_json]. *)
Theorem answer_is_coalesced py text code db inv txn ur w w' r :
  _extract_execute_block text = Returns code ->
  execute_generated_code py text db inv txn ur w = (w', Returns r) ->
  let L := f_locals (ran_frame (body_run py code db inv txn ur w)) in
  let a := dict_get L "answer_text" in
  let b := dict_get L "answer_rows" in
  let c := dict_get L "answer_json" in
  ((truthy None w' a = Returns true /\ ExecutionResult.answer r = a)
   \/ (truthy None w' a = Returns false /\ truthy None w' b = Returns true
       /\ ExecutionResult.answer r = b)
   \/ (truthy None w' a = Returns false /\ truthy None w' b = Returns false
       /\ ExecutionResult.answer r = c))
  /\ (forall v, L !! "answer_text" = Some v -> truthy None w' v = Returns true ->
        ExecutionResult.answer r = v)
  /\ (forall v, L !! "answer_text" = Some v -> truthy None w' v = Returns false ->
        py_or None w' b c = Returns (ExecutionResult.answer r))
  /\ (L !! "answer_text" = Some (VStr "") ->
        py_or None w' b c = Returns (ExecutionResult.answer r))
  /\ (L !! "answer_text" = None ->
        py_or None w' b c = Returns (ExecutionResult.answer r)).
Proof.
  intros Hx Hrun L a b c.
  destruct (execute_returns_inv _ _ _ _ _ _ _ _ _ Hrun)
    as (code' & Hx' & _ & _ & Ha).
  rewrite Hx in Hx'. injection Hx' as <-.
  destruct (assemble_inv _ _ _ _ _ _ _ _ _ Ha) as (_ & Hst & Hor & _).
  rewrite Hst in Hor. fold L a b c in Hor.
  unfold py_or3 in Hor.
  assert (Hget : forall v, L !! "answer_text" = Some v -> a = v).
  { intros v Hv. unfold a, dict_get. now rewrite Hv. }
  assert (Hfalse : truthy None w' a = Returns false ->
                   py_or None w' b c = Returns (ExecutionResult.answer r)).
  { intros Hf. now rewrite Hf in Hor. }
  split; [|split; [|split; [|split]]].
  - destruct (truthy None w' a) as [[|]|e] eqn:Ta; try discriminate.
    + left. injection Hor as <-. now split.
    + right. unfold py_or in Hor.
      destruct (truthy None w' b) as [[|]|e] eqn:Tb; try discriminate;
        injection Hor as <-; [left | right]; now repeat split.
  - intros v Hv Ht. rewrite <- (Hget v Hv) in Ht. rewrite Ht in Hor.
    injection Hor as <-. exact (Hget v Hv).
  - intros v Hv Ht. rewrite <- (Hget v Hv) in Ht. exact (Hfalse Ht).
  - intros Hv. apply Hfalse. now rewrite (Hget _ Hv).
  - intros Hv. apply Hfalse. unfold a, dict_get. now rewrite Hv.
Qed.

Lemma answer_is_coalesced_witness :
  _extract_execute_block "answer_text = ''; answer_rows = [1]"
  = Returns "answer_text = ''; answer_rows = [1]"
  /\ exists w' r,
       demo_run "answer_text = ''; answer_rows = [1]" demo_world
       = (w', Returns r)
       /\ ExecutionResult.answer r = VList [VInt 1].
Proof.
  split; [reflexivity|].
  destruct (demo_run "answer_text = ''; answer_rows = [1]" demo_world)
    as [w' [r|e]] eqn:Hrun;
    [|apply (f_equal snd) in Hrun; vm_compute in Hrun; discriminate Hrun].
  exists w', r. split; [reflexivity|].
  destruct (answer_is_coalesced demo_python
              "answer_text = ''; answer_rows = [1]"
              "answer_text = ''; answer_rows = [1]" (VObj ODb) "inventory"
              "transactions" None demo_world w' r eq_refl Hrun)
    as (_ & _ & _ & Hempty & _).
  assert (Hor : py_or None w'
            (dict_get (f_locals (ran_frame (body_run demo_python
               "answer_text = ''; answer_rows = [1]" (VObj ODb) "inventory"
               "transactions" None demo_world))) "answer_rows")
            (dict_get (f_locals (ran_frame (body_run demo_python
               "answer_text = ''; answer_rows = [1]" (VObj ODb) "inventory"
               "transactions" None demo_world))) "answer_json")
          = Returns (ExecutionResult.answer r)).
  { apply Hempty. vm_compute. reflexivity. }
  assert (E : py_or None w'
            (dict_get (f_locals (ran_frame (body_run demo_python
               "answer_text = ''; answer_rows = [1]" (VObj ODb) "inventory"
               "transactions" None demo_world))) "answer_rows")
            (dict_get (f_locals (ran_frame (body_run demo_python
               "answer_text = ''; answer_rows = [1]" (VObj ODb) "inventory"
               "transactions" None demo_world))) "answer_json")
          = Returns (VList [VInt 1])) by (vm_compute; reflexivity).
  rewrite E in Hor. now injection Hor.
Defined.

(** C1, as the executor has it: when the plan body finishes without a fault
    and never assigns [answer_text], every dictionary the call returns has
    no error, and its answer is [answer_rows] if truthy and [answer_json]
    otherwise ([None] when neither is set), whatever the body did to the
    store; the snapshots show the store as the body left it. The call
    returns such a dictionary whenever no statement after the [try] block
    raises. The dictionary has no status. *)
Theorem missing_answer_text_result py text code db inv txn ur w :
  _extract_execute_block text = Returns code ->
  ran_exn (body_run py code db inv txn ur w) = None ->
  assigns "answer_text" (ran_trace (body_run py code db inv txn ur w)) = false ->
  let fr := ran_frame (body_run py code db inv txn ur w) in
  let L := f_locals fr in
  (forall w' r,
     execute_generated_code py text db inv txn ur w = (w', Returns r) ->
     ExecutionResult.error r = None
     /\ py_or None w' (dict_get L "answer_rows") (dict_get L "answer_json")
        = Returns (ExecutionResult.answer r)
     /\ ExecutionResult.inventory_tbl r = table_all (f_world fr) inv
     /\ ExecutionResult.transactions_tbl r = table_all (f_world fr) txn)
  /\ (after_try_ok py code db inv txn ur w ->
      exists w' r,
        execute_generated_code py text db inv txn ur w = (w', Returns r)).
Proof.
  intros Hx Hok Hna. cbv zeta.
  pose proof (run_plan_locals _ _ _ Hna) as Hl.
  change (f_locals (ran_frame (body_run py code db inv txn ur w)) !! "answer_text"
          = SAFE_LOCALS db inv txn !! "answer_text") in Hl.
  assert (Hnone : SAFE_LOCALS db inv txn !! "answer_text" = None)
    by (vm_compute; reflexivity).
  rewrite Hnone in Hl.
  split.
  - intros w' r Hrun.
    destruct (execute_returns_inv _ _ _ _ _ _ _ _ _ Hrun)
      as (code' & Hx' & _ & Hw & Ha).
    rewrite Hx in Hx'. injection Hx' as <-.
    destruct (assemble_inv _ _ _ _ _ _ _ _ _ Ha)
      as (_ & Hst & Hor & _ & _ & Herr & Ht & Hi).
    rewrite Hok in Herr. simpl in Herr.
    rewrite Hst in Hor. unfold py_or3, dict_get at 1 in Hor.
    rewrite Hl in Hor. simpl in Hor.
    subst w'. now repeat split.
  - intros Hafter.
    apply (execute_returns_iff _ _ _ _ _ _ _ _ Hx).
    split; [now rewrite Hok | exact Hafter].
Qed.

Lemma missing_answer_text_result_witness :
  _extract_execute_block "print('hi'); answer_rows = [1]"
  = Returns "print('hi'); answer_rows = [1]"
  /\ ran_exn (body_run demo_python "print('hi'); answer_rows = [1]"
               (VObj ODb) "inventory" "transactions" None demo_world) = None
  /\ assigns "answer_text"
       (ran_trace (body_run demo_python "print('hi'); answer_rows = [1]"
                     (VObj ODb) "inventory" "transactions" None demo_world))
     = false
  /\ after_try_ok demo_python "print('hi'); answer_rows = [1]" (VObj ODb)
       "inventory" "transactions" None demo_world
  /\ exists w' r,
       demo_run "print('hi'); answer_rows = [1]" demo_world = (w', Returns r)
       /\ ExecutionResult.error r = None
       /\ ExecutionResult.answer r = VList [VInt 1]
       /\ ExecutionResult.inventory_tbl r = [aviator]
       /\ ExecutionResult.transactions_tbl r = [opening_balance].
Proof.
  split; [reflexivity|]. split; [vm_compute; reflexivity|].
  split; [vm_compute; reflexivity|].
  assert (Hafter : after_try_ok demo_python "print('hi'); answer_rows = [1]"
                     (VObj ODb) "inventory" "transactions" None demo_world).
  { split; [vm_compute; reflexivity|].
    split; [eexists; vm_compute; reflexivity | vm_compute; reflexivity]. }
  split; [exact Hafter|].
  destruct (missing_answer_text_result demo_python
              "print('hi'); answer_rows = [1]" "print('hi'); answer_rows = [1]"
              (VObj ODb) "inventory" "transactions" None demo_world eq_refl)
    as [Hall Hex]; [vm_compute; reflexivity | vm_compute; reflexivity |].
  destruct (Hex Hafter) as (w' & r & Hrun).
  exists w', r. split; [exact Hrun|].
  destruct (Hall w' r Hrun) as (Herr & Hans & Hi & Ht).
  split; [exact Herr|].
  apply (f_equal fst) in Hrun. simpl in Hrun. subst w'.
  split; [|split].
  - match type of Hans with
    | ?lhs = _ =>
        assert (E : lhs = Returns (VList [VInt 1])) by (vm_compute; reflexivity);
        rewrite E in Hans
    end.
    now injection Hans.
  - rewrite Hi. vm_compute. reflexivity.
  - rewrite Ht. vm_compute. reflexivity.
Defined.

(** C1, as the design document has it, fails: with the plan text
    [if user_request: answer_text = ''; STATUS = 'success'] the run without
    a request never assigns [answer_text], the run with the request [hi]
    reports success with an empty [answer_text], and the two calls return
    the same dictionary; no status can be read off it. *)
Lemma contract_violation_not_reported :
  snd (execute_generated_code demo_python
         "if user_request: answer_text = ''; STATUS = 'success'"
         (VObj ODb) "inventory" "transactions" None demo_world)
  = snd (execute_generated_code demo_python
         "if user_request: answer_text = ''; STATUS = 'success'"
         (VObj ODb) "inventory" "transactions" (Some "hi") demo_world)
  /\ ~ reports_contract_violation.
Proof.
  assert (E : snd (execute_generated_code demo_python
         "if user_request: answer_text = ''; STATUS = 'success'"
         (VObj ODb) "inventory" "transactions" None demo_world)
  = snd (execute_generated_code demo_python
         "if user_request: answer_text = ''; STATUS = 'success'"
         (VObj ODb) "inventory" "transactions" (Some "hi") demo_world))
    by (vm_compute; reflexivity).
  split; [exact E|].
  intros (status_of & Hcv & Hok).
  set (text := "if user_request: answer_text = ''; STATUS = 'success'") in *.
  destruct (execute_generated_code demo_python text (VObj ODb) "inventory"
              "transactions" None demo_world) as [w1 o1] eqn:E1.
  destruct (execute_generated_code demo_python text (VObj ODb) "inventory"
              "transactions" (Some "hi") demo_world) as [w2 o2] eqn:E2.
  simpl in E. subst o2.
  assert (Hr : exists r, o1 = Returns r).
  { apply (f_equal snd) in E1. simpl in E1. subst o1.
    vm_compute. eexists. reflexivity. }
  destruct Hr as [r ->].
  apply (Hok demo_python text text (VObj ODb) "inventory" "transactions"
           (Some "hi") demo_world w2 r "");
    [reflexivity | vm_compute; reflexivity | vm_compute; reflexivity | exact E2 |].
  apply (Hcv demo_python text text (VObj ODb) "inventory" "transactions"
           None demo_world w1 r);
    [reflexivity | vm_compute; reflexivity | vm_compute; reflexivity | exact E1].
Qed.




(** C3, as the executor has it: extraction fails exactly on the empty
    text; the call then raises the extractor's error at once, in the
    process state it was given and whatever the interpreter would do with
    any plan. A non-empty text of white space only is extracted to the
    empty plan body. *)
Theorem extraction_fails_iff_empty :
  (forall text,
     (exists e, _extract_execute_block text = Raises e) <-> text = "")
  /\ _extract_execute_block ""
     = Raises (RuntimeError "Empty content passed to code executor.")
  /\ (forall py db inv txn ur w,
        execute_generated_code py "" db inv txn ur w
        = (w, Raises (RuntimeError "Empty content passed to code executor.")))
  /\ (forall text,
        text <> "" -> PyStr.all_space text = true ->
        _extract_execute_block text = Returns "").
Proof.
  split; [exact extract_empty_iff|]. split; [reflexivity|].
  split; [reflexivity|].
  intros text Hne Hsp. unfold _extract_execute_block.
  destruct text as [|c s]; [congruence|].
  unfold PyStr.truthy, negb.
  now rewrite (search_blank _ Hsp), (strip_blank _ Hsp).
Qed.

Lemma extraction_fails_iff_empty_witness :
  " " <> "" /\ PyStr.all_space " " = true
  /\ _extract_execute_block " " = Returns "".
Proof.
  split; [discriminate|]. split; [reflexivity|].
  apply (proj2 (proj2 (proj2 extraction_fails_iff_empty)));
    [discriminate | reflexivity].
Defined.

(** C3, as the design document has it, fails: a text of one blank is not
    refused; it is extracted to the empty plan body, which is then run. *)
Lemma blank_text_is_executed :
  _extract_execute_block " " = Returns ""
  /\ (exists r, snd (demo_run " " demo_world) = Returns r)
  /\ ~ fails_iff_blank.
Proof.
  split; [reflexivity|]. split; [eexists; vm_compute; reflexivity|].
  intros H. destruct (proj2 (H " ")) as [e He]; [now right|].
  discriminate He.
Qed.

(** [strip] trims: it removes white space at the two ends and nothing
    else. *)
Lemma strip_is_trim (s : string) : is_trim_of s (PyStr.strip s).
Proof.
  split; [|split].
  - destruct (lstrip_split s) as (a & Ea & Ha).
    destruct (rstrip_split (PyStr.lstrip s)) as (b & Eb & Hb).
    exists a, b. unfold PyStr.strip. rewrite <- Eb. now repeat split.
  - intros c r. apply strip_head.
  - intros a c. unfold PyStr.strip. apply rstrip_last.
Qed.

(** C4: in a text whose first opening tag (up to case) is followed by a
    closing tag, extraction returns the text between that opening tag and
    the first closing tag after it, trimmed of the white space at its two
    ends, whatever follows; a non-empty text without such a pair of tags is
    returned trimmed in the same way. The two texts of the design document
    extract to [CODE], also when white space surrounds the code. *)
Theorem extraction_takes_first_region :
  (forall pre o body c post,
     ci_equal Regex.open_tag o = true ->
     ci_equal Regex.close_tag c = true ->
     occurs Regex.open_tag pre = false ->
     occurs Regex.close_tag body = false ->
     _extract_execute_block (pre ++ o ++ body ++ c ++ post)
     = Returns (PyStr.strip body)
     /\ is_trim_of body (PyStr.strip body))
  /\ (forall text,
        text <> "" -> ~ has_region text ->
        _extract_execute_block text = Returns (PyStr.strip text)
        /\ is_trim_of text (PyStr.strip text))
  /\ _extract_execute_block
       "prefix <execute_python>CODE</execute_python> suffix" = Returns "CODE"
  /\ _extract_execute_block "CODE" = Returns "CODE"
  /\ _extract_execute_block
       ("prefix <EXECUTE_python>" ++ PyStr.nl ++ "  CODE "
        ++ String (ascii_of_nat 9) "" ++ PyStr.nl
        ++ "</Execute_Python> suffix <execute_python>MORE</execute_python>")
     = Returns "CODE"
  /\ _extract_execute_block
       (PyStr.nl ++ "  CODE " ++ String (ascii_of_nat 9) "" ++ PyStr.nl)
     = Returns "CODE".
Proof.
  split; [|split; [|repeat split; reflexivity]].
  - intros pre o body c post Ho Hc Hpre Hbody.
    split; [|apply strip_is_trim].
    unfold _extract_execute_block.
    rewrite (search_first_region _ _ _ _ _ Ho Hc Hpre Hbody).
    assert (Ht : PyStr.truthy (pre ++ o ++ body ++ c ++ post) = true).
    { apply truthy_app_r.
      destruct o; [discriminate Ho | reflexivity]. }
    now rewrite Ht.
  - intros text Hne Hno. split; [|apply strip_is_trim].
    unfold _extract_execute_block.
    destruct text as [|x s]; [congruence|].
    unfold PyStr.truthy, negb.
    destruct (Regex.search (String x s)) as [g|] eqn:Hs; [|reflexivity].
    exfalso. apply Hno. exact (search_inv _ _ Hs).
Qed.

Lemma extraction_takes_first_region_witness :
  ci_equal Regex.open_tag "<Execute_Python>" = true
  /\ ci_equal Regex.close_tag "</EXECUTE_PYTHON>" = true
  /\ occurs Regex.open_tag "plan: " = false
  /\ occurs Regex.close_tag "  a = 1 " = false
  /\ _extract_execute_block
       ("plan: " ++ "<Execute_Python>" ++ "  a = 1 " ++ "</EXECUTE_PYTHON>"
        ++ "<execute_python>b = 2</execute_python>")
     = Returns "a = 1"
  /\ is_trim_of "  a = 1 " "a = 1".
Proof.
  split; [reflexivity|]. split; [reflexivity|].
  split; [reflexivity|]. split; [reflexivity|].
  exact (proj1 extraction_takes_first_region "plan: " "<Execute_Python>"
           "  a = 1 " "</EXECUTE_PYTHON>"
           "<execute_python>b = 2</execute_python>"
           eq_refl eq_refl eq_refl eq_refl).
Defined.

(** What a returned dictionary holds, in terms of the run of the body. *)
Lemma execute_result_fields py text db inv txn ur w w' r :
  execute_generated_code py text db inv txn ur w = (w', Returns r) ->
  exists code,
    _extract_execute_block text = Returns code
    /\ ExecutionResult.code r = code
    /\ ExecutionResult.stdout r
       = PyStr.strip (s_text (stream_of w' (fst (new_StringIO w))))
    /\ ExecutionResult.error r
       = option_map (format_exc (exec_site py))
           (ran_exn (body_run py code db inv txn ur w))
    /\ py_or3 None w'
         (dict_get (f_locals (ran_frame (body_run py code db inv txn ur w)))
            "answer_text")
         (dict_get (f_locals (ran_frame (body_run py code db inv txn ur w)))
            "answer_rows")
         (dict_get (f_locals (ran_frame (body_run py code db inv txn ur w)))
            "answer_json")
       = Returns (ExecutionResult.answer r)
    /\ tables w' = tables (f_world (ran_frame (body_run py code db inv txn ur w)))
    /\ ExecutionResult.inventory_tbl r = table_all w' inv
    /\ ExecutionResult.transactions_tbl r = table_all w' txn.
Proof.
  intros Hrun.
  destruct (execute_returns_inv _ _ _ _ _ _ _ _ _ Hrun)
    as (code & Hx & _ & Hw & Ha).
  exists code. split; [exact Hx|].
  destruct (assemble_inv _ _ _ _ _ _ _ _ _ Ha)
    as (_ & Hst & Hor & Hc & Hout & Herr & Ht & Hi).
  rewrite Hst in Hor.
  split; [exact Hc|]. split; [exact Hout|]. split; [exact Herr|].
  split; [exact Hor|]. split; [now subst w'|]. now split.
Qed.

(** C5, as the executor has it: the returned dictionary holds the extracted
    code, the stripped text of the capture buffer, the traceback of a
    recorded fault, the answer harvested from the three answer names of the
    plan's locals, and the two collections as they are when the call
    returns, that is, as the plan body left them. The agent returns the
    generated text and the same fields, and names the two snapshots
    [inventory_after] and [transactions_after]. Neither dictionary has a
    field for the collections before the run. *)
Theorem result_holds_after_snapshots :
  (forall py text db inv txn ur w w' r,
     execute_generated_code py text db inv txn ur w = (w', Returns r) ->
     exists code,
       _extract_execute_block text = Returns code
       /\ ExecutionResult.code r = code
       /\ ExecutionResult.stdout r
          = PyStr.strip (s_text (stream_of w' (fst (new_StringIO w))))
       /\ ExecutionResult.error r
          = option_map (format_exc (exec_site py))
              (ran_exn (body_run py code db inv txn ur w))
       /\ py_or3 None w'
            (dict_get (f_locals (ran_frame (body_run py code db inv txn ur w)))
               "answer_text")
            (dict_get (f_locals (ran_frame (body_run py code db inv txn ur w)))
               "answer_rows")
            (dict_get (f_locals (ran_frame (body_run py code db inv txn ur w)))
               "answer_json")
          = Returns (ExecutionResult.answer r)
       /\ tables w' = tables (f_world (ran_frame (body_run py code db inv txn ur w)))
       /\ ExecutionResult.inventory_tbl r = table_all w' inv
       /\ ExecutionResult.transactions_tbl r = table_all w' txn)
  /\ (forall ext py question db inv txn model (reseed : bool) w w' r,
        customer_service_agent ext py question db inv txn model reseed w
        = (w', Returns r) ->
        let w0 := if reseed then create_transactions ext (create_inventory ext w)
                  else w in
        AgentResult.full_content r
        = generate_llm_code ext question inv txn model w0
        /\ exists code,
             _extract_execute_block (AgentResult.full_content r) = Returns code
             /\ AgentResult.code (AgentResult.exec r) = code
             /\ AgentResult.stdout (AgentResult.exec r)
                = PyStr.strip (s_text (stream_of w' (fst (new_StringIO w0))))
             /\ AgentResult.error (AgentResult.exec r)
                = option_map (format_exc (exec_site py))
                    (ran_exn (body_run py code db inv txn (Some question) w0))
             /\ py_or3 None w'
                  (dict_get (f_locals (ran_frame
                     (body_run py code db inv txn (Some question) w0)))
                     "answer_text")
                  (dict_get (f_locals (ran_frame
                     (body_run py code db inv txn (Some question) w0)))
                     "answer_rows")
                  (dict_get (f_locals (ran_frame
                     (body_run py code db inv txn (Some question) w0)))
                     "answer_json")
                = Returns (AgentResult.answer (AgentResult.exec r))
             /\ tables w'
                = tables (f_world (ran_frame
                    (body_run py code db inv txn (Some question) w0)))
             /\ AgentResult.inventory_after (AgentResult.exec r)
                = table_all w' inv
             /\ AgentResult.transactions_after (AgentResult.exec r)
                = table_all w' txn).
Proof.
  split; [exact execute_result_fields|].
  intros ext py question db inv txn model reseed w w' r H. cbv zeta.
  unfold customer_service_agent in H.
  set (w0 := if reseed then _ else w) in *.
  set (fc := generate_llm_code ext question inv txn model w0) in *.
  destruct (execute_generated_code py fc db inv txn (Some question) w0)
    as [w1 [x|e]] eqn:Hrun; [|discriminate].
  injection H as <- <-. split; [reflexivity|].
  destruct (execute_result_fields _ _ _ _ _ _ _ _ _ Hrun)
    as (code & Hx & Hc & Hout & Herr & Hor & Ht & _ & _).
  exists code. simpl. now repeat split.
Qed.

Lemma result_holds_after_snapshots_witness :
  exists w' r,
    demo_run "inventory_tbl.truncate(); transactions_tbl.truncate()" demo_world
    = (w', Returns r)
    /\ ExecutionResult.code r
       = "inventory_tbl.truncate(); transactions_tbl.truncate()"
    /\ ExecutionResult.stdout r = ""
    /\ ExecutionResult.error r = None
    /\ ExecutionResult.answer r = VNone
    /\ ExecutionResult.inventory_tbl r = []
    /\ ExecutionResult.transactions_tbl r = [].
Proof.
  destruct (demo_run "inventory_tbl.truncate(); transactions_tbl.truncate()"
              demo_world) as [w' [r|e]] eqn:Hrun;
    [|apply (f_equal snd) in Hrun; vm_compute in Hrun; discriminate Hrun].
  exists w', r. split; [reflexivity|].
  destruct (proj1 result_holds_after_snapshots _ _ _ _ _ _ _ _ _ Hrun)
    as (code & Hx & Hc & Hout & Herr & Hor & _ & Hi & Ht).
  injection Hx as <-.
  apply (f_equal fst) in Hrun. simpl in Hrun. subst w'.
  split; [exact Hc|].
  split; [rewrite Hout; vm_compute; reflexivity|].
  split; [rewrite Herr; vm_compute; reflexivity|].
  split.
  - match type of Hor with
    | ?lhs = _ =>
        assert (E : lhs = Returns VNone) by (vm_compute; reflexivity);
        rewrite E in Hor
    end.
    now injection Hor.
  - rewrite Hi, Ht. split; vm_compute; reflexivity.
Defined.

(** C5, as the design document has it, fails: a plan that empties both
    tables returns the same dictionary from a stocked store and from an
    empty one, so the collections before the run cannot be read off it;
    the same holds for the dictionary of the agent. *)
Lemma before_snapshot_not_returned :
  snd (demo_run "inventory_tbl.truncate(); transactions_tbl.truncate()" demo_world)
  = snd (demo_run "inventory_tbl.truncate(); transactions_tbl.truncate()" empty_world)
  /\ table_all demo_world "inventory" <> table_all empty_world "inventory"
  /\ ~ result_keeps_before
  /\ ~ agent_result_keeps_before.
Proof.
  set (text := "inventory_tbl.truncate(); transactions_tbl.truncate()").
  assert (E : snd (demo_run text demo_world) = snd (demo_run text empty_world))
    by (vm_compute; reflexivity).
  assert (D : table_all demo_world "inventory" <> table_all empty_world "inventory")
    by (vm_compute; discriminate).
  split; [exact E|]. split; [exact D|]. split.
  - intros [before_of H].
    destruct (demo_run text demo_world) as [w1 o1] eqn:E1.
    destruct (demo_run text empty_world) as [w2 o2] eqn:E2.
    simpl in E. subst o2.
    assert (Hr : exists r, o1 = Returns r).
    { apply (f_equal snd) in E1. simpl in E1. subst o1.
      vm_compute. eexists. reflexivity. }
    destruct Hr as [r ->].
    pose proof (H _ _ _ _ _ _ _ _ _ E1) as H1.
    pose proof (H _ _ _ _ _ _ _ _ _ E2) as H2.
    rewrite H1 in H2. apply D. now injection H2.
  - intros [before_of H].
    set (ext := demo_external
      "<execute_python>inventory_tbl.truncate(); transactions_tbl.truncate()</execute_python>").
    set (run := fun w => customer_service_agent ext demo_python "empty the store"
                  (VObj ODb) "inventory" "transactions" "o4-mini" false w).
    assert (E' : snd (run demo_world) = snd (run empty_world))
      by (vm_compute; reflexivity).
    destruct (run demo_world) as [w1 o1] eqn:E1.
    destruct (run empty_world) as [w2 o2] eqn:E2.
    simpl in E'. subst o2.
    assert (Hr : exists r, o1 = Returns r).
    { apply (f_equal snd) in E1. simpl in E1. subst o1.
      vm_compute. eexists. reflexivity. }
    destruct Hr as [r ->].
    pose proof (H _ _ _ _ _ _ _ _ _ _ E1) as H1.
    pose proof (H _ _ _ _ _ _ _ _ _ _ E2) as H2.
    rewrite H1 in H2. apply D. now injection H2.
Qed.

Section Names.

Lemma SAFE_LOCALS_lookup db inv txn (x : string) :
  SAFE_LOCALS db inv txn !! x
  = if decide (x = "db") then Some db
    else if decide (x = "inventory_tbl") then Some (VObj (OTable inv))
    else if decide (x = "transactions_tbl") then Some (VObj (OTable txn))
    else None.
Proof.
  unfold SAFE_LOCALS.
  repeat case_decide; simplify_map_eq; reflexivity.
Qed.

Lemma exec_globals_lookup ur (x : string) :
  is_Some ((<["__builtins__" := VObj (ONamespace "builtins")]> (SAFE_GLOBALS ur)) !! x)
  <-> x = "__builtins__" \/ x = "Query" \/ x = "get_current_balance"
      \/ x = "next_transaction_id" \/ x = "user_request".
Proof.
  unfold SAFE_GLOBALS. split.
  - intros [v Hv].
    destruct (decide (x = "__builtins__")); [tauto|].
    destruct (decide (x = "Query")); [tauto|].
    destruct (decide (x = "get_current_balance")); [tauto|].
    destruct (decide (x = "next_transaction_id")); [tauto|].
    destruct (decide (x = "user_request")); [tauto|].
    simplify_map_eq.
  - intros [->|[->|[->|[->| ->]]]]; simplify_map_eq; eauto.
Qed.

End Names.

(** C6, as the executor has it: the names the plan body can resolve are the
    seven the executor binds (the two tables, the database, the two helpers,
    [Query] and the request string), the name [__builtins__] that [exec]
    adds, and every name of the interpreter's built-in module. The seven
    are bound to what the caller passed. *)
Theorem visible_names py db inv txn ur w :
  (forall x,
     is_Some (resolve (body_frame py db inv txn ur w) x)
     <-> In x sandbox_bindings \/ x = "__builtins__"
         \/ is_Some (builtins py !! x))
  /\ resolve (body_frame py db inv txn ur w) "db" = Some db
  /\ resolve (body_frame py db inv txn ur w) "inventory_tbl"
     = Some (VObj (OTable inv))
  /\ resolve (body_frame py db inv txn ur w) "transactions_tbl"
     = Some (VObj (OTable txn))
  /\ resolve (body_frame py db inv txn ur w) "user_request"
     = Some (VStr (match ur with
                   | Some s => if PyStr.truthy s then s else ""
                   | None => ""
                   end))
  /\ resolve (body_frame py db inv txn ur w) "Query"
     = Some (VObj (OCallable "tinydb.Query"))
  /\ resolve (body_frame py db inv txn ur w) "get_current_balance"
     = Some (VObj (OCallable "inv_utils.get_current_balance"))
  /\ resolve (body_frame py db inv txn ur w) "next_transaction_id"
     = Some (VObj (OCallable "inv_utils.next_transaction_id")).
Proof.
  assert (Hg : SAFE_GLOBALS ur !! "__builtins__" = None) by reflexivity.
  split; [|repeat split; reflexivity].
  intros x. unfold resolve, body_frame, exec_frame.
  cbn [f_locals f_globals f_builtins]. rewrite Hg, SAFE_LOCALS_lookup.
  pose proof (exec_globals_lookup ur x) as HG.
  unfold sandbox_bindings. simpl In.
  destruct (decide (x = "db")) as [->|]; [split; [tauto | eauto]|].
  destruct (decide (x = "inventory_tbl")) as [->|]; [split; [tauto | eauto]|].
  destruct (decide (x = "transactions_tbl")) as [->|]; [split; [tauto | eauto]|].
  destruct (_ !! x) as [v|] eqn:E.
  - split; [|eauto]. intros _.
    destruct (proj1 HG) as [->|[->|[->|[->| ->]]]]; eauto; tauto.
  - split.
    + intros H. tauto.
    + intros [H|[H|H]]; [|exfalso|exact H].
      * exfalso. destruct (is_Some_None (A:=PyVal)). apply HG.
        destruct H as [H|[H|[H|[H|[H|[H|[H|[]]]]]]]]; subst x;
          congruence || tauto.
      * destruct (is_Some_None (A:=PyVal)). apply HG. tauto.
Qed.

(** C6, as the design document has it, fails: the plan body resolves [open],
    a name of the built-in module that is none of the enumerated bindings. *)
Lemma builtins_are_visible :
  resolve (body_frame demo_python (VObj ODb) "inventory" "transactions" None
             demo_world) "open"
  = Some (VObj (OCallable "builtins.open"))
  /\ ~ In "open" sandbox_bindings
  /\ ~ sees_only_sandbox_bindings.
Proof.
  assert (Hno : ~ In "open" sandbox_bindings).
  { simpl. intros [H|[H|[H|[H|[H|[H|[H|[]]]]]]]]; discriminate H. }
  split; [vm_compute; reflexivity|]. split; [exact Hno|].
  intros H. apply Hno.
  apply (H demo_python (VObj ODb) "inventory" "transactions" None demo_world).
  vm_compute. eauto.
Qed.




(** * Further properties of the extractor, the executor and the agent *)

Lemma extract_is_strip (text code : string) :
  _extract_execute_block text = Returns code ->
  exists t, code = PyStr.strip t
            /\ (Regex.search text = Some t \/ (Regex.search text = None /\ t = text)).
Proof.
  unfold _extract_execute_block.
  destruct (negb (PyStr.truthy text)); [discriminate|].
  destruct (Regex.search text) as [g|]; intros H; injection H as <-; eauto.
Qed.

(** X1: the code that extraction returns carries no white space at either
    end: stripping it again changes nothing, its first character is not
    white space and neither is its last. *)
Theorem extracted_code_is_stripped (text code : string) :
  _extract_execute_block text = Returns code ->
  PyStr.strip code = code
  /\ (forall c r, code = String c r -> PyStr.is_space c = false)
  /\ (forall a c, code = a ++ String c "" -> PyStr.is_space c = false).
Proof.
  intros H. destruct (extract_is_strip _ _ H) as (t & -> & _).
  split; [apply strip_idem|]. split.
  - intros c r. apply strip_head.
  - intros a c. unfold PyStr.strip. apply rstrip_last.
Qed.

Lemma extracted_code_is_stripped_witness :
  _extract_execute_block "<execute_python>  x = 1  </execute_python>"
  = Returns "x = 1"
  /\ PyStr.strip "x = 1" = "x = 1"
  /\ (forall c r, "x = 1" = String c r -> PyStr.is_space c = false)
  /\ (forall a c, "x = 1" = a ++ String c "" -> PyStr.is_space c = false).
Proof.
  split; [reflexivity|].
  apply (extracted_code_is_stripped "<execute_python>  x = 1  </execute_python>").
  reflexivity.
Defined.

(** X2: extraction is idempotent on what it returns: a non-empty extracted
    code extracts to itself, so running the executor on the extracted code
    is the same call as running it on the full response. *)
Theorem extraction_is_idempotent (text code : string) :
  _extract_execute_block text = Returns code ->
  code <> "" ->
  _extract_execute_block code = Returns code
  /\ (forall py db inv txn ur w,
        execute_generated_code py code db inv txn ur w
        = execute_generated_code py text db inv txn ur w).
Proof.
  intros H Hne.
  assert (Hidem : _extract_execute_block code = Returns code).
  { destruct (extract_is_strip _ _ H) as (t & Ec & Ht).
    assert (Hs : Regex.search code = None).
    { rewrite Ec. destruct Ht as [Ht|[Ht ->]].
      - apply group_no_region. exact (search_group_no_close _ _ Ht).
      - now apply strip_no_region. }
    unfold _extract_execute_block. rewrite Hs.
    destruct code as [|c r]; [congruence|].
    unfold PyStr.truthy, negb. rewrite Ec. now rewrite strip_idem. }
  split; [exact Hidem|].
  intros py db inv txn ur w. unfold execute_generated_code.
  now rewrite H, Hidem.
Qed.

Lemma extraction_is_idempotent_witness :
  _extract_execute_block "Plan: <execute_python> print('hi') </execute_python> done"
  = Returns "print('hi')"
  /\ "print('hi')" <> ""
  /\ _extract_execute_block "print('hi')" = Returns "print('hi')"
  /\ (forall py db inv txn ur w,
        execute_generated_code py "print('hi')" db inv txn ur w
        = execute_generated_code py
            "Plan: <execute_python> print('hi') </execute_python> done"
            db inv txn ur w).
Proof.
  split; [reflexivity|]. split; [discriminate|].
  apply (extraction_is_idempotent
           "Plan: <execute_python> print('hi') </execute_python> done");
    [reflexivity | discriminate].
Defined.

(** X3: when the text holds an opening tag with a closing tag after it,
    extraction succeeds and the code it returns holds no closing tag. *)
Theorem tagged_code_has_no_closing_tag (text : string) :
  has_region text ->
  exists code,
    _extract_execute_block text = Returns code
    /\ occurs Regex.close_tag code = false.
Proof.
  intros Hreg. destruct (search_complete _ Hreg) as [g Hg].
  exists (PyStr.strip g). split.
  - unfold _extract_execute_block. rewrite Hg.
    destruct text as [|c r]; [discriminate Hg | reflexivity].
  - pose proof (search_group_no_close _ _ Hg) as Hn.
    destruct (strip_split g) as (a & b & Eg).
    rewrite Eg in Hn. exact (occurs_within _ _ _ _ Hn).
Qed.

Lemma tagged_code_has_no_closing_tag_witness :
  has_region "<execute_python>a = 1</execute_python>b</EXECUTE_PYTHON>"
  /\ exists code,
       _extract_execute_block
         "<execute_python>a = 1</execute_python>b</EXECUTE_PYTHON>"
       = Returns code
       /\ occurs Regex.close_tag code = false.
Proof.
  assert (Hreg : has_region
            "<execute_python>a = 1</execute_python>b</EXECUTE_PYTHON>").
  { exists "", "<execute_python>", "a = 1</execute_python>b",
      "</EXECUTE_PYTHON>", "". repeat split; reflexivity. }
  split; [exact Hreg|].
  exact (tagged_code_has_no_closing_tag _ Hreg).
Defined.

(** X4: the code that extraction returns is a contiguous piece of the text
    it was given: the executor runs no character that the response does not
    hold. *)
Theorem extracted_code_is_part_of_text (text code : string) :
  _extract_execute_block text = Returns code ->
  exists a b, text = a ++ code ++ b.
Proof.
  intros H. destruct (extract_is_strip _ _ H) as (t & -> & Ht).
  destruct (strip_split t) as (a & b & Et).
  destruct Ht as [Ht|[_ ->]].
  - destruct (search_inv_group _ _ Ht) as (pre & o & c & post & -> & _ & _).
    exists (pre ++ o ++ a), (b ++ c ++ post).
    rewrite Et at 1. now rewrite !app_assoc_s.
  - now exists a, b.
Qed.

Lemma extracted_code_is_part_of_text_witness :
  _extract_execute_block "Plan: <execute_python> print('hi') </execute_python> done"
  = Returns "print('hi')"
  /\ exists a b,
       "Plan: <execute_python> print('hi') </execute_python> done"
       = a ++ "print('hi')" ++ b.
Proof.
  split; [reflexivity|].
  apply (extracted_code_is_part_of_text
           "Plan: <execute_python> print('hi') </execute_python> done").
  reflexivity.
Defined.



(** X8: when the chat service answers with no content or with the empty
    string, [generate_llm_code] returns the empty string, and on an empty
    generated text the agent does not return: the extractor's
    [RuntimeError] leaves [customer_service_agent], with the store as the
    optional reseeding left it. *)
Theorem agent_raises_on_empty_generation ext py question db inv txn model
    (reseed : bool) w :
  let w0 := if reseed then create_transactions ext (create_inventory ext w)
            else w in
  let prompt :=
    PROMPT_format ext
      (build_schema_block ext (table_all w0 inv) (table_all w0 txn)) question in
  let reply :=
    chat_completion ext model
      "You write safe, well-commented TinyDB code to handle data questions and updates."
      prompt in
  reply = None \/ reply = Some "" ->
  generate_llm_code ext question inv txn model w0 = ""
  /\ customer_service_agent ext py question db inv txn model reseed w
     = (w0, Raises (RuntimeError "Empty content passed to code executor.")).
Proof.
  intros w0 prompt reply H.
  assert (Hg : generate_llm_code ext question inv txn model w0 = "").
  { unfold generate_llm_code. fold prompt. fold reply.
    destruct H as [-> | ->]; reflexivity. }
  split; [exact Hg|].
  unfold customer_service_agent. fold w0. rewrite Hg. reflexivity.
Qed.

Lemma agent_raises_on_empty_generation_witness :
  (chat_completion (demo_external "") "o4-mini"
     "You write safe, well-commented TinyDB code to handle data questions and updates."
     (PROMPT_format (demo_external "")
        (build_schema_block (demo_external "")
           (table_all demo_world "inventory")
           (table_all demo_world "transactions"))
        "Return 2 Aviator sunglasses.") = None
   \/ chat_completion (demo_external "") "o4-mini"
        "You write safe, well-commented TinyDB code to handle data questions and updates."
        (PROMPT_format (demo_external "")
           (build_schema_block (demo_external "")
              (table_all demo_world "inventory")
              (table_all demo_world "transactions"))
           "Return 2 Aviator sunglasses.") = Some "")
  /\ customer_service_agent (demo_external "") demo_python
       "Return 2 Aviator sunglasses." (VObj ODb) "inventory" "transactions"
       "o4-mini" false demo_world
     = (demo_world,
        Raises (RuntimeError "Empty content passed to code executor.")).
Proof.
  split; [right; reflexivity|].
  apply (agent_raises_on_empty_generation (demo_external "") demo_python
           "Return 2 Aviator sunglasses." (VObj ODb) "inventory" "transactions"
           "o4-mini" false demo_world).
  right. reflexivity.
Defined.

(** X9: when the agent returns, the dictionary under its key [exec] is the
    one the executor returned for the generated text with the question as
    the request: the same code, log, error and answer, and the agent's two
    snapshots are the executor's, taken from the same store. *)
Theorem agent_result_mirrors_executor ext py question db inv txn model
    (reseed : bool) w w' r :
  customer_service_agent ext py question db inv txn model reseed w
  = (w', Returns r) ->
  let w0 := if reseed then create_transactions ext (create_inventory ext w)
            else w in
  AgentResult.full_content r = generate_llm_code ext question inv txn model w0
  /\ exists x,
       execute_generated_code py (AgentResult.full_content r) db inv txn
         (Some question) w0 = (w', Returns x)
       /\ AgentResult.code (AgentResult.exec r) = ExecutionResult.code x
       /\ AgentResult.stdout (AgentResult.exec r) = ExecutionResult.stdout x
       /\ AgentResult.error (AgentResult.exec r) = ExecutionResult.error x
       /\ AgentResult.answer (AgentResult.exec r) = ExecutionResult.answer x
       /\ AgentResult.inventory_after (AgentResult.exec r)
          = ExecutionResult.inventory_tbl x
       /\ AgentResult.transactions_after (AgentResult.exec r)
          = ExecutionResult.transactions_tbl x.
Proof.
  intros H. cbv zeta. unfold customer_service_agent in H.
  set (w0 := if reseed then _ else w) in *.
  set (fc := generate_llm_code ext question inv txn model w0) in *.
  destruct (execute_generated_code py fc db inv txn (Some question) w0)
    as [w1 [x|e]] eqn:Hrun; [|discriminate].
  injection H as <- <-. split; [reflexivity|].
  exists x. simpl.
  destruct (execute_snapshots _ _ _ _ _ _ _ _ _ Hrun) as [Hi Hl].
  repeat split; auto.
Qed.

Lemma agent_result_mirrors_executor_witness :
  exists w' r,
    customer_service_agent
      (demo_external "<execute_python>print('hi'); answer_rows = [1]</execute_python>")
      demo_python "list" (VObj ODb) "inventory" "transactions" "o4-mini" false
      demo_world = (w', Returns r)
    /\ AgentResult.full_content r
       = "<execute_python>print('hi'); answer_rows = [1]</execute_python>"
    /\ exists x,
         execute_generated_code demo_python (AgentResult.full_content r)
           (VObj ODb) "inventory" "transactions" (Some "list") demo_world
         = (w', Returns x)
         /\ AgentResult.inventory_after (AgentResult.exec r)
            = ExecutionResult.inventory_tbl x
         /\ AgentResult.answer (AgentResult.exec r) = ExecutionResult.answer x.
Proof.
  destruct (customer_service_agent
      (demo_external "<execute_python>print('hi'); answer_rows = [1]</execute_python>")
      demo_python "list" (VObj ODb) "inventory" "transactions" "o4-mini" false
      demo_world) as [w' [r|e]] eqn:E;
    [|apply (f_equal snd) in E; vm_compute in E; discriminate E].
  exists w', r. split; [reflexivity|].
  destruct (agent_result_mirrors_executor _ _ _ _ _ _ _ _ _ _ _ E)
    as (Hfc & x & Hrun & _ & _ & _ & Hans & Hinv & _).
  split; [rewrite Hfc; reflexivity|].
  exists x. split; [exact Hrun|]. split; [exact Hinv | exact Hans].
Defined.

(** X10: a non-empty text in which the opening tag or the closing tag does
    not occur, such as a response cut off before its closing tag, is taken
    whole: extraction returns the stripped text, a lone tag included. *)
Theorem unpaired_tag_text_is_taken_whole (text : string) :
  text <> "" ->
  occurs Regex.open_tag text = false \/ occurs Regex.close_tag text = false ->
  _extract_execute_block text = Returns (PyStr.strip text).
Proof.
  intros Hne Hno. unfold _extract_execute_block.
  destruct text as [|x s]; [congruence|].
  unfold PyStr.truthy, negb.
  destruct (Regex.search (String x s)) as [g|] eqn:Hs; [|reflexivity].
  exfalso. pose proof (search_inv _ _ Hs) as Hreg.
  destruct Hno as [Hno|Hno].
  - now rewrite (has_region_occurs_open _ Hreg) in Hno.
  - now rewrite (has_region_occurs _ Hreg) in Hno.
Qed.

Lemma unpaired_tag_text_is_taken_whole_witness :
  "<execute_python> answer_text = 'ok' " <> ""
  /\ (occurs Regex.open_tag "<execute_python> answer_text = 'ok' " = false
      \/ occurs Regex.close_tag "<execute_python> answer_text = 'ok' " = false)
  /\ _extract_execute_block "<execute_python> answer_text = 'ok' "
     = Returns "<execute_python> answer_text = 'ok'".
Proof.
  split; [discriminate|]. split; [right; reflexivity|].
  apply (unpaired_tag_text_is_taken_whole "<execute_python> answer_text = 'ok' ");
    [discriminate | right; reflexivity].
Defined.
